(** * Follower-history extractor: shallow embedding of [extract_append.py]

    The development follows class [DataExtractor]: the three follower-count
    patterns and their extractors, the filename timestamp parser, the
    history store (load, merge, save), the batch driver and the summary
    report.

    Conventions of the embedding.
    - A Python [str] is a list of Unicode code points ([text]).
    - [re.search] is a backtracking matcher over the pattern syntax the
      three extractors and the timestamp parser use: literals, the
      single-character classes [\d], [[^>]] and [.] (under [re.DOTALL])
      with the quantifiers [*], [*?], [+] and [{n}], capture groups and
      concatenation.
    - [\d] and [int] follow CPython on [str]: every decimal digit of the
      Unicode database (category Nd, version 14.0) is a digit.  CPython's
      configurable cap on the number of digits [int] converts is not
      modelled.
    - Exceptions are values of [exn]; code that may raise returns a
      [result], and code with effects runs in the monad [M] over [world]
      (history file, standard output, wall clock).
    - The history file holds either text [json.load] rejects or a mapping
      date -> platform -> count with integer counts, the shape the program
      writes; JSON documents of another shape are outside the model.
    - Snapshot files are given by name and decoded content; reading them
      and writing the history file do not fail in the model.
    - [str.lower] is a parameter of the batch driver.
    - The percentage of the growth report is a binary64 value
      ([SpecFloat], precision 53, [emax] 1024), rounded as Python rounds
      the quotient of two [int]s and the product of two doubles. *)

From Stdlib Require Import ZArith NArith List Bool Lia String Ascii.
From Stdlib Require Import Floats.SpecFloat.
From stdpp Require Import gmap list sorting.

Set Default Proof Using "Type".

(** ** Text *)

Abbreviation text := (list N).

(** An ASCII literal of the source.  The patterns and messages are full of
    double quotes and have no apostrophe, so a literal is written here with
    an apostrophe wherever the source has a double quote. *)
Definition code_of_ascii (a : ascii) : N :=
  let c := N_of_ascii a in if (c =? 39)%N then 34%N else c.

Fixpoint py (s : string) : text :=
  match s with
  | EmptyString => []
  | String a s' => code_of_ascii a :: py s'
  end.

(** The labels of the follower counters: 粉丝 (fans) and 粉丝数 (number of fans). *)
Definition fans : text := [0x7C89; 0x4E1D]%N.
Definition fans_count : text := [0x7C89; 0x4E1D; 0x6570]%N.

(** First code point of each block of ten decimal digits (category Nd). *)
Definition decimal_blocks : list N :=
  [48; 1632; 1776; 1984; 2406; 2534; 2662; 2790; 2918; 3046; 3174; 3302;
   3430; 3558; 3664; 3792; 3872; 4160; 4240; 6112; 6160; 6470; 6608; 6784;
   6800; 6992; 7088; 7232; 7248; 42528; 43216; 43264; 43472; 43504; 43600;
   44016; 65296; 66720; 68912; 69734; 69872; 69942; 70096; 70384; 70736;
   70864; 71248; 71360; 71472; 71904; 72016; 72784; 73040; 73120; 92768;
   92864; 93008; 120782; 120792; 120802; 120812; 120822; 123200; 123632;
   125264; 130032]%N.

Definition digit_value (c : N) : option N :=
  match find (fun b => (b <=? c)%N && (c <? b + 10)%N) decimal_blocks with
  | Some b => Some (c - b)%N
  | None => None
  end.

Definition is_digit (c : N) : bool :=
  match digit_value c with Some _ => true | None => false end.

(** The ASCII digits, [[0-9]]. *)
Definition is_ascii_digit (c : N) : bool := (48 <=? c)%N && (c <=? 57)%N.

(** ** Exceptions *)

Inductive exn : Type :=
| Exception (msg : text)
| ValueError
| OverflowError
| ZeroDivisionError
| OSError (msg : text).

Inductive result (A : Type) : Type :=
| Ok (a : A)
| Raise (e : exn).
Arguments Ok {A} a.
Arguments Raise {A} e.

(** ** [int] on a run of digits *)

Fixpoint int_acc (acc : Z) (s : text) : option Z :=
  match s with
  | [] => Some acc
  | c :: s' =>
      match digit_value c with
      | Some d => int_acc (10 * acc + Z.of_N d) s'
      | None => None
      end
  end.

(** [int(s)]: base 10; [ValueError] on the empty string and on a character
    that is no digit.  (Signs, blanks and underscores, which Python's [int]
    also reads, never reach it from a [\d+] group.) *)
Definition int (s : text) : result Z :=
  match s with
  | [] => Raise ValueError
  | _ => match int_acc 0 s with
         | Some z => Ok z
         | None => Raise ValueError
         end
  end.

(** The decimal numeral of [n], most significant digit first. *)
Fixpoint decimal_fuel (fuel : nat) (n : N) (acc : text) : text :=
  match fuel with
  | O => acc
  | S f =>
      let acc' := (48 + n mod 10)%N :: acc in
      if (n <? 10)%N then acc' else decimal_fuel f (n / 10)%N acc'
  end.

Definition decimal (n : N) : text :=
  decimal_fuel (S (N.to_nat (N.log2 n))) n [].

(** ** Regular expressions *)

Module Re.

Inductive cclass : Type :=
| Digit     (* \d *)
| NotGt     (* [^>] *)
| AnyChar.  (* . under re.DOTALL *)

Definition in_class (c : cclass) (x : N) : bool :=
  match c with
  | Digit => is_digit x
  | NotGt => negb (x =? 62)%N
  | AnyChar => true
  end.

Inductive regex : Type :=
| Lit (l : text)               (* literal characters *)
| Star (c : cclass)            (* c*   greedy *)
| LazyStar (c : cclass)        (* c*?  *)
| Plus (c : cclass)            (* c+   greedy *)
| Rep (n : nat) (c : cclass)   (* c{n} *)
| Group (r : regex)            (* ( r ) *)
| Seq (r1 r2 : regex).

Infix "+>" := Seq (at level 62, right associativity).

(** Captured groups, in the order the groups close (the patterns nest no
    groups, so this is their numbering). *)
Definition caps : Type := list text.

Section Matcher.
Context {R : Type}.

Fixpoint strip (l s : text) : option text :=
  match l, s with
  | [], _ => Some s
  | a :: l', b :: s' => if (a =? b)%N then strip l' s' else None
  | _ :: _, [] => None
  end.

(** Greedy repetition: the longest run first, then one character less. *)
Fixpoint m_star (c : cclass) (s : text) (k : text -> option R) : option R :=
  match s with
  | x :: s' =>
      if in_class c x then
        match m_star c s' k with
        | Some r => Some r
        | None => k s
        end
      else k s
  | [] => k []
  end.

(** Lazy repetition: the empty run first, then one character more. *)
Fixpoint m_lazy (c : cclass) (s : text) (k : text -> option R) : option R :=
  match k s with
  | Some r => Some r
  | None =>
      match s with
      | x :: s' => if in_class c x then m_lazy c s' k else None
      | [] => None
      end
  end.

Fixpoint m_rep (n : nat) (c : cclass) (s : text) (k : text -> option R)
  : option R :=
  match n with
  | O => k s
  | S n' =>
      match s with
      | x :: s' => if in_class c x then m_rep n' c s' k else None
      | [] => None
      end
  end.

(** [m r s g k]: match [r] at the head of [s] with the groups [g] closed
    so far, and hand the rest of the text to [k]; when [k] fails, the
    next alternative of [r] is tried. *)
Fixpoint m (r : regex) (s : text) (g : caps)
    (k : text -> caps -> option R) : option R :=
  match r with
  | Lit l =>
      match strip l s with
      | Some s' => k s' g
      | None => None
      end
  | Star c => m_star c s (fun s' => k s' g)
  | LazyStar c => m_lazy c s (fun s' => k s' g)
  | Plus c =>
      match s with
      | x :: s' =>
          if in_class c x then m_star c s' (fun s'' => k s'' g) else None
      | [] => None
      end
  | Rep n c => m_rep n c s (fun s' => k s' g)
  | Group r1 =>
      m r1 s g
        (fun s' g' => k s' (g' ++ [take (length s - length s') s]))
  | r1 +> r2 => m r1 s g (fun s' g' => m r2 s' g' k)
  end.
End Matcher.

(** A match of [r] at the head of [s]: its groups. *)
Definition match_here (r : regex) (s : text) : option caps :=
  m r s [] (fun _ g => Some g).

(** [re.search]: the match at the leftmost position that has one. *)
Fixpoint search (r : regex) (s : text) : option caps :=
  match match_here r s with
  | Some g => Some g
  | None =>
      match s with
      | [] => None
      | _ :: s' => search r s'
      end
  end.

(** [match.group(i)] for [i >= 1]. *)
Definition group (i : nat) (g : caps) : text := nth (i - 1) g [].

(** The words of a pattern, with the groups they fill. *)
Inductive Matches : regex -> text -> caps -> Prop :=
| MLit l : Matches (Lit l) l []
| MStar c w : forallb (in_class c) w = true -> Matches (Star c) w []
| MLazyStar c w : forallb (in_class c) w = true -> Matches (LazyStar c) w []
| MPlus c w :
    w <> [] -> forallb (in_class c) w = true -> Matches (Plus c) w []
| MRep n c w :
    length w = n -> forallb (in_class c) w = true -> Matches (Rep n c) w []
| MGroup r w g : Matches r w g -> Matches (Group r) w (g ++ [w])
| MSeq r1 r2 w1 w2 g1 g2 :
    Matches r1 w1 g1 -> Matches r2 w2 g2 ->
    Matches (r1 +> r2) (w1 ++ w2) (g1 ++ g2).

(** The pattern has an occurrence that begins at position [i] of [s]. *)
Definition occurs_at (r : regex) (s : text) (i : nat) : Prop :=
  i <= length s /\
  exists w rest g, drop i s = w ++ rest /\ Matches r w g.

Definition occurs (r : regex) (s : text) : Prop :=
  exists i, occurs_at r s i.

End Re.
Import Re.

(** ** Pattern Extractor *)

Inductive Platform : Type := Bilibili | Douyin | Xiaohongshu.

(** [<span[^>]*class="nav-statistics__item-text">粉丝数</span><span[^>]*class="nav-statistics__item-num"[^>]*title="(\d+)">(\d+)</span>] *)
Definition bilibili_pattern : regex :=
  Lit (py "<span") +> Star NotGt +>
  Lit (py "class='nav-statistics__item-text'>" ++ fans_count
         ++ py "</span><span") +>
  Star NotGt +> Lit (py "class='nav-statistics__item-num'") +>
  Star NotGt +> Lit (py "title='") +> Group (Plus Digit) +>
  Lit (py "'>") +> Group (Plus Digit) +> Lit (py "</span>").

(** [<div[^>]*data-e2e="user-info-fans"[^>]*>.*?<div[^>]*>粉丝</div>.*?<div[^>]*>(\d+)</div>] *)
Definition douyin_pattern : regex :=
  Lit (py "<div") +> Star NotGt +> Lit (py "data-e2e='user-info-fans'") +>
  Star NotGt +> Lit (py ">") +> LazyStar AnyChar +>
  Lit (py "<div") +> Star NotGt +> Lit (py ">" ++ fans ++ py "</div>") +>
  LazyStar AnyChar +>
  Lit (py "<div") +> Star NotGt +> Lit (py ">") +> Group (Plus Digit) +>
  Lit (py "</div>").

(** [<span class="count"[^>]*>(\d+)</span><span class="shows"[^>]*>粉丝</span>] *)
Definition xiaohongshu_pattern : regex :=
  Lit (py "<span class='count'") +> Star NotGt +> Lit (py ">") +>
  Group (Plus Digit) +>
  Lit (py "</span><span class='shows'") +> Star NotGt +>
  Lit (py ">" ++ fans ++ py "</span>").

Definition extract_with (pattern : regex) (html_content : text)
  : result (option Z) :=
  match search pattern html_content with
  | Some g =>
      match int (group 1 g) with
      | Ok n => Ok (Some n)
      | Raise e => Raise e
      end
  | None => Ok None
  end.

Definition extract_bilibili_followers (html_content : text) :=
  extract_with bilibili_pattern html_content.

Definition extract_douyin_followers (html_content : text) :=
  extract_with douyin_pattern html_content.

Definition extract_xiaohongshu_followers (html_content : text) :=
  extract_with xiaohongshu_pattern html_content.

Definition pattern_of (p : Platform) : regex :=
  match p with
  | Bilibili => bilibili_pattern
  | Douyin => douyin_pattern
  | Xiaohongshu => xiaohongshu_pattern
  end.

(** [extract(platform, html_text)]: the extractor of the platform. *)
Definition extract (p : Platform) (html_text : text) : result (option Z) :=
  match p with
  | Bilibili => extract_bilibili_followers html_text
  | Douyin => extract_douyin_followers html_text
  | Xiaohongshu => extract_xiaohongshu_followers html_text
  end.


(** The counter elements the patterns are written for, as the docstrings
    of the extractors show them: the fixed markup of the page template,
    the attribute text between the fixed parts left open, and the
    follower count [n] as a decimal numeral. *)
Record attrs : Type := {
  attr1 : text; attr2 : text; attr3 : text; attr4 : text
}.

(** Text inside a tag: no [>]. *)
Definition tag_text (a : text) : bool := forallb (in_class NotGt) a.

Definition attrs_ok (a : attrs) : bool :=
  tag_text (attr1 a) && tag_text (attr2 a) && tag_text (attr3 a)
  && tag_text (attr4 a).

Definition bilibili_element (a : attrs) (n : N) : text :=
  py "<span" ++ attr1 a ++ py "class='nav-statistics__item-text'>"
  ++ fans_count ++ py "</span><span" ++ attr2 a
  ++ py "class='nav-statistics__item-num'" ++ attr3 a ++ py "title='"
  ++ decimal n ++ py "'>" ++ decimal n ++ py "</span>".

Definition douyin_element (a : attrs) (n : N) : text :=
  py "<div" ++ attr1 a ++ py "data-e2e='user-info-fans'" ++ attr2 a
  ++ py ">" ++ py "<div" ++ attr3 a ++ py ">" ++ fans ++ py "</div>"
  ++ py "<div" ++ attr4 a ++ py ">" ++ decimal n ++ py "</div>".

Definition xiaohongshu_element (a : attrs) (n : N) : text :=
  py "<span class='count'" ++ attr1 a ++ py ">" ++ decimal n
  ++ py "</span><span class='shows'" ++ attr2 a ++ py ">" ++ fans
  ++ py "</span>".

Definition element (p : Platform) (a : attrs) (n : N) : text :=
  match p with
  | Bilibili => bilibili_element a n
  | Douyin => douyin_element a n
  | Xiaohongshu => xiaohongshu_element a n
  end.

Definition no_attrs : attrs :=
  {| attr1 := []; attr2 := []; attr3 := []; attr4 := [] |}.

(** The attributes of the examples in the docstrings of the extractors. *)
Definition doc_attrs (p : Platform) : attrs :=
  match p with
  | Bilibili =>
      {| attr1 := py " data-v-8c500df6='' "; attr2 := py " data-v-8c500df6='' ";
         attr3 := py " "; attr4 := [] |}
  | Douyin =>
      {| attr1 := py " class='Q1A_pjwq ELUP9h2u' "; attr2 := [];
         attr3 := py " class='uvGnYXqn'"; attr4 := py " class='C1cxu0Vq'" |}
  | Xiaohongshu =>
      {| attr1 := py " data-v-18b45ae8=''"; attr2 := py " data-v-18b45ae8=''";
         attr3 := []; attr4 := [] |}
  end.


(** ** Filename Timestamp Parser *)

Record datetime : Type := {
  year : Z; month : Z; day : Z;
  hour : Z; minute : Z; second : Z; microsecond : Z
}.

Definition ch (a : ascii) : N := N_of_ascii a.

(** A character of an ASCII range [[lo-hi]]. *)
Definition between (lo hi : ascii) (c : N) : bool :=
  (ch lo <=? c)%N && (c <=? ch hi)%N.

Definition is_leap (y : Z) : bool :=
  (y mod 4 =? 0)%Z && (negb (y mod 100 =? 0)%Z || (y mod 400 =? 0)%Z).

Definition days_in_month (y mo : Z) : Z :=
  if (mo =? 2)%Z then (if is_leap y then 29 else 28)%Z
  else if ((mo =? 4) || (mo =? 6) || (mo =? 9) || (mo =? 11))%Z then 30%Z
  else 31%Z.

(** The constructor of [datetime] checks the ranges of its fields. *)
Definition valid_datetime (dt : datetime) : bool :=
  ((1 <=? year dt) && (year dt <=? 9999) &&
   (1 <=? month dt) && (month dt <=? 12) &&
   (1 <=? day dt) && (day dt <=? days_in_month (year dt) (month dt)) &&
   (0 <=? hour dt) && (hour dt <=? 23) &&
   (0 <=? minute dt) && (minute dt <=? 59) &&
   (0 <=? second dt) && (second dt <=? 59) &&
   (0 <=? microsecond dt) && (microsecond dt <=? 999999))%Z.

(** How [strptime] reads the two-character fields of the format: the
    directive patterns of the standard library are
    [%m]: [1[0-2]|0[1-9]|[1-9]], [%d]: [3[0-1]|[1-2]\d|0[1-9]|[1-9]| [1-9]],
    [%H]: [2[0-3]|[0-1]\d|\d], [%M]: [[0-5]\d|\d], [%S]: [6[0-1]|[0-5]\d|\d],
    and [%Y]: [\d\d\d\d].  Between four year digits, the underscore and the
    end of a text of eight digits, an underscore and six digits, every
    field takes exactly two characters or the parse fails. *)
Definition month_field (c1 c2 : N) : bool :=
  (c1 =? ch "1")%N && between "0" "2" c2 ||
  (c1 =? ch "0")%N && between "1" "9" c2.

Definition day_field (c1 c2 : N) : bool :=
  (c1 =? ch "3")%N && between "0" "1" c2 ||
  between "1" "2" c1 && is_digit c2 ||
  (c1 =? ch "0")%N && between "1" "9" c2.

Definition hour_field (c1 c2 : N) : bool :=
  (c1 =? ch "2")%N && between "0" "3" c2 ||
  between "0" "1" c1 && is_digit c2.

Definition minute_field (c1 c2 : N) : bool :=
  between "0" "5" c1 && is_digit c2.

Definition second_field (c1 c2 : N) : bool :=
  (c1 =? ch "6")%N && between "0" "1" c2 ||
  between "0" "5" c1 && is_digit c2.

(** [datetime.strptime(s, "%Y%m%d_%H%M%S")] on the texts the parser builds
    (a group of eight digits, an underscore, a group of six digits). *)
Definition strptime (s : text) : result datetime :=
  match s with
  | [y1; y2; y3; y4; m1; m2; d1; d2; u; h1; h2; mi1; mi2; s1; s2] =>
      if forallb is_digit [y1; y2; y3; y4] && month_field m1 m2 &&
         day_field d1 d2 && (u =? ch "_")%N && hour_field h1 h2 &&
         minute_field mi1 mi2 && second_field s1 s2
      then
        match int_acc 0 [y1; y2; y3; y4], int_acc 0 [m1; m2],
              int_acc 0 [d1; d2], int_acc 0 [h1; h2],
              int_acc 0 [mi1; mi2], int_acc 0 [s1; s2] with
        | Some y, Some mo, Some d, Some h, Some mi, Some sec =>
            let dt := {| year := y; month := mo; day := d; hour := h;
                         minute := mi; second := sec; microsecond := 0 |} in
            if valid_datetime dt then Ok dt else Raise ValueError
        | _, _, _, _, _, _ => Raise ValueError
        end
      else Raise ValueError
  | _ => Raise ValueError
  end.

(** [n] written with [w] digits, zeros in front. *)
Fixpoint pad (w : nat) (n : Z) : text :=
  match w with
  | O => []
  | S w' => pad w' (n / 10) ++ [(48 + Z.to_N (n mod 10))%N]
  end.

(** [dt.isoformat()], for fields within the ranges of [datetime]. *)
Definition isoformat (dt : datetime) : text :=
  pad 4 (year dt) ++ py "-" ++ pad 2 (month dt) ++ py "-" ++ pad 2 (day dt)
  ++ py "T" ++ pad 2 (hour dt) ++ py ":" ++ pad 2 (minute dt) ++ py ":"
  ++ pad 2 (second dt)
  ++ (if (microsecond dt =? 0)%Z then [] else py "." ++ pad 6 (microsecond dt)).

(** [(\d{8})_(\d{6})] *)
Definition timestamp_pattern : regex :=
  Group (Rep 8 Digit) +> Lit (py "_") +> Group (Rep 6 Digit).

(** [s.split(sep)[0]]: the text before the first [sep]. *)
Fixpoint split_first (sep : N) (s : text) : text :=
  match s with
  | [] => []
  | c :: s' => if (c =? sep)%N then [] else c :: split_first sep s'
  end.

(** The tokens of a filename that spell [dt]: [YYYYMMDD] and [HHMMSS]. *)
Definition date_token (dt : datetime) : text :=
  pad 4 (year dt) ++ pad 2 (month dt) ++ pad 2 (day dt).

Definition time_token (dt : datetime) : text :=
  pad 2 (hour dt) ++ pad 2 (minute dt) ++ pad 2 (second dt).

(** The timestamp an eight-character token and a six-character token
    spell when they are read as [YYYYMMDD] and [HHMMSS]. *)
Definition combine_tokens (d t : text) : text :=
  take 4 d ++ py "-" ++ take 2 (drop 4 d) ++ py "-" ++ drop 6 d ++ py "T"
  ++ take 2 t ++ py ":" ++ take 2 (drop 2 t) ++ py ":" ++ drop 4 t.

(** ** World and effects *)

(** The history store: date -> platform -> follower count. *)
Abbreviation history := (gmap text (gmap text Z)).

(** The history file: missing, present with content that [open] or
    [json.load] rejects with [e], or present with a stored mapping. *)
Inductive file_state : Type :=
| Absent
| Unreadable (e : exn)
| Stored (h : history).

(** The lines the program prints, one constructor per [print] of the
    source, with the values the line shows. *)
Inductive line : Type :=
| CouldNotExtract (name : text)
| ErrorLoading (e : exn)
| AlreadyExists (platform date : text)       (* "... already exists, overwriting" *)
| Added (platform : text) (followers : Z) (date : text)
| DirNotFound
| NoHtmlFiles
| Rule                                       (* the line of 50 equal signs *)
| ProcessingCount (n : nat)                  (* "Processing {n} HTML files..." *)
| Processing (name : text)
| Blank
| Processed (processed total : nat)          (* "Processed {p}/{n} files successfully" *)
| SavedTo
| NoData
| SummaryTitle
| TotalDates (n : nat)
| DateRange (first_date last_date : text)
| DataByDate
| DateHeading (date : text)
| PlatformLine (platform : text) (followers : Z)
| GrowthTitle
| GrowthLine (platform : text) (first_count last_count growth : Z)
             (growth_pct : spec_float).

Record world : Type := {
  history_file : file_state;   (* self.output_file *)
  stdout : list line;          (* printed so far, oldest first *)
  clock : nat -> datetime;     (* successive readings of the wall clock *)
  ticks : nat                  (* readings taken so far *)
}.

Definition M (A : Type) : Type := world -> result A * world.

#[global] Instance M_ret : MRet M := fun A a w => (Ok a, w).

#[global] Instance M_bind : MBind M := fun A B f c w =>
  match c w with
  | (Ok a, w') => f a w'
  | (Raise e, w') => (Raise e, w')
  end.

Definition raise {A : Type} (e : exn) : M A := fun w => (Raise e, w).

Definition lift {A : Type} (r : result A) : M A := fun w => (r, w).

(** [try: c  except Exception as e: h e] *)
Definition try_except {A : Type} (c : M A) (h : exn -> M A) : M A := fun w =>
  match c w with
  | (Ok a, w') => (Ok a, w')
  | (Raise e, w') => h e w'
  end.

Definition print (l : line) : M unit := fun w =>
  (Ok tt, {| history_file := history_file w; stdout := stdout w ++ [l];
             clock := clock w; ticks := ticks w |}).

(** [datetime.now()] *)
Definition datetime_now : M datetime := fun w =>
  (Ok (clock w (ticks w)),
   {| history_file := history_file w; stdout := stdout w;
      clock := clock w; ticks := S (ticks w) |}).

Definition extract_timestamp_from_filename (filename : text) : M text :=
  match search timestamp_pattern filename with
  | Some g =>
      let date_str := group 1 g in
      let time_str := group 2 g in
      dt ← lift (strptime (date_str ++ py "_" ++ time_str));
      mret (isoformat dt)
  | None =>
      dt ← datetime_now;
      mret (isoformat dt)
  end.

(** ** History Store *)

(** An extraction result, the dictionary [process_html_file] returns. *)
Record entry : Type := {
  platform : text;
  followers : Z;
  timestamp : text;
  source_file : text
}.

(** [self.output_file.exists()] *)
Definition output_file_exists : M bool := fun w =>
  (Ok (match history_file w with Absent => false | _ => true end), w).

(** [with open(self.output_file, 'r') as f: return json.load(f)] *)
Definition read_output_file : M history := fun w =>
  match history_file w with
  | Absent => (Raise (OSError (py "No such file or directory")), w)
  | Unreadable e => (Raise e, w)
  | Stored h => (Ok h, w)
  end.

Definition load_existing_data : M history :=
  present ← output_file_exists;
  if (present : bool) then
    try_except read_output_file
      (fun e => print (ErrorLoading e);; mret (∅ : history))
  else mret ∅.

Definition save_data (data : history) : M unit := fun w =>
  (Ok tt, {| history_file := Stored data; stdout := stdout w;
             clock := clock w; ticks := ticks w |}).

Definition append_data (new_entry : entry) : M unit :=
  history0 ← load_existing_data;
  let platform := platform new_entry in
  let timestamp := timestamp new_entry in
  let followers := followers new_entry in
  let date := split_first (ch "T") timestamp in
  (* if date not in history: history[date] = {} *)
  let history1 : history :=
    match history0 !! date with
    | None => <[date := ∅]> history0
    | Some _ => history0
    end in
  let day_entry : gmap text Z := default ∅ (history1 !! date) in
  (if decide (is_Some (day_entry !! platform))
   then print (AlreadyExists platform date) else mret tt);;
  (* history[date][platform] = followers *)
  let history2 : history :=
    <[date := <[platform := followers]> day_entry]> history1 in
  print (Added platform followers date);;
  save_data history2.

(** ** Summary and growth report *)

Definition prec : Z := 53.
Definition emax : Z := 1024.

(** The exact value of an [int], as the operand of a division or product
    that rounds once to a double. *)
Definition float_of_int (z : Z) : spec_float :=
  match z with
  | Z0 => S754_zero false
  | Zpos p => S754_finite false p 0
  | Zneg p => S754_finite true p 0
  end.

(** [a / b] on [int]s: the quotient rounded to the nearest double. *)
Definition true_divide (a b : Z) : result spec_float :=
  if (b =? 0)%Z then Raise ZeroDivisionError
  else
    match SFdiv prec emax (float_of_int a) (float_of_int b) with
    | S754_infinity _ => Raise OverflowError
    | q => Ok q
    end.

(** [(growth / first_count * 100) if first_count > 0 else 0]; the [int] 0
    of the second branch is shown by the format [+.2f] as the double 0.0. *)
Definition growth_pct_of (growth first_count : Z) : result spec_float :=
  if (0 <? first_count)%Z then
    match true_divide growth first_count with
    | Ok q => Ok (SFmul prec emax q (float_of_int 100))
    | Raise e => Raise e
    end
  else Ok (S754_zero false).

Definition sign_text (plus : bool) (negative : bool) : text :=
  if negative then py "-" else if plus then py "+" else [].

(** [m * 2^e] rounded to the nearest integer, ties to even. *)
Definition round_half_even (m e : Z) : Z :=
  if (0 <=? e)%Z then (m * 2 ^ e)%Z
  else
    let d := (2 ^ (- e))%Z in
    let q := (m / d)%Z in
    let r := (m mod d)%Z in
    if (2 * r <? d)%Z then q
    else if (d <? 2 * r)%Z then (q + 1)%Z
    else if Z.even q then q else (q + 1)%Z.

(** The format [+.2f]. *)
Definition format_pct (x : spec_float) : text :=
  match x with
  | S754_zero s => sign_text true s ++ py "0.00"
  | S754_infinity s => sign_text true s ++ py "inf"
  | S754_nan => py "+nan"
  | S754_finite s m e =>
      let q := round_half_even (Zpos m * 100) e in
      sign_text true s ++ decimal (Z.to_N (q / 100)) ++ py "."
        ++ pad 2 (q mod 100)
  end.

(** Digits, least significant first, with a comma after every third. *)
Fixpoint group3 (ds : text) : text :=
  match ds with
  | a :: b :: c :: ((_ :: _) as more) => a :: b :: c :: ch "," :: group3 more
  | _ => ds
  end.

(** The formats [,] ([plus = false]) and [+,] ([plus = true]) of an [int]. *)
Definition format_int (plus : bool) (n : Z) : text :=
  sign_text plus (n <? 0)%Z ++ rev (group3 (rev (decimal (Z.abs_N n)))).

(** The text of a growth line:
    [  {platform}: {first_count:,} → {last_count:,} ({growth:+,}, {growth_pct:+.2f}%)] *)
Definition render_growth (platform : text) (first_count last_count growth : Z)
    (growth_pct : spec_float) : text :=
  py "  " ++ platform ++ py ": " ++ format_int false first_count
  ++ py " " ++ [0x2192%N] ++ py " " ++ format_int false last_count
  ++ py " (" ++ format_int true growth ++ py ", " ++ format_pct growth_pct
  ++ py "%)".

(** Order of [str]: lexicographic on code points. *)
Fixpoint text_leb (a b : text) : bool :=
  match a, b with
  | [], _ => true
  | _ :: _, [] => false
  | x :: a', y :: b' =>
      if (x <? y)%N then true
      else if (y <? x)%N then false
      else text_leb a' b'
  end.

Definition text_le (a b : text) : Prop := text_leb a b = true.

#[global] Instance text_le_dec : RelDecision text_le.
Proof. intros a b. unfold text_le. apply _. Defined.

(** [sorted(keys)] *)
Definition sorted (keys : list text) : list text := merge_sort text_le keys.

Definition key_le {A : Type} (x y : text * A) : Prop := text_le x.1 y.1.

#[global] Instance key_le_dec {A : Type} : RelDecision (@key_le A).
Proof. intros x y. unfold key_le. apply _. Defined.

(** [sorted(d.items())], pairs with distinct keys. *)
Definition sorted_items {A : Type} (items : list (text * A)) : list (text * A) :=
  merge_sort key_le items.

(** [for x in xs: body x] *)
Fixpoint for_each {A : Type} (xs : list A) (body : A -> M unit) : M unit :=
  match xs with
  | [] => mret tt
  | x :: xs' => body x;; for_each xs' body
  end.

Definition tracked_platforms : list text :=
  [py "douyin"; py "bilibili"; py "xiaohongshu"].

(** The growth analysis of [display_summary], between the first and the
    last of the sorted dates. *)
Definition growth_analysis (h : history) (sorted_dates : list text) : M unit :=
  print GrowthTitle;;
  let first_date := hd [] sorted_dates in
  let last_date := List.last sorted_dates [] in
  for_each tracked_platforms (fun platform =>
    match default ∅ (h !! first_date) !! platform,
          default ∅ (h !! last_date) !! platform with
    | Some first_count, Some last_count =>
        let growth := (last_count - first_count)%Z in
        growth_pct ← lift (growth_pct_of growth first_count);
        print (GrowthLine platform first_count last_count growth growth_pct)
    | _, _ => mret tt
    end).

Definition display_summary : M unit :=
  h ← load_existing_data;
  if decide (h = ∅) then print NoData
  else
    print Rule;; print SummaryTitle;; print Rule;;
    let sorted_dates := sorted (map fst (map_to_list h)) in
    print (TotalDates (length sorted_dates));;
    print (DateRange (hd [] sorted_dates) (List.last sorted_dates []));;
    print DataByDate;;
    for_each sorted_dates (fun date =>
      print (DateHeading date);;
      let platforms := default ∅ (h !! date) in
      for_each (sorted_items (map_to_list platforms)) (fun item =>
        print (PlatformLine item.1 item.2)));;
    (if decide (1 < length sorted_dates)
     then growth_analysis h sorted_dates else mret tt);;
    print Rule.

(** ** Batch Driver *)

(** A snapshot file of the cache directory: its name and its text. *)
Record snapshot : Type := { name : text; content : text }.

(** [needle in haystack] on [str]. *)
Fixpoint contains (needle haystack : text) : bool :=
  match strip needle haystack with
  | Some _ => true
  | None =>
      match haystack with
      | [] => false
      | _ :: rest => contains needle rest
      end
  end.

Definition platform_name (p : Platform) : text :=
  match p with
  | Bilibili => py "bilibili"
  | Douyin => py "douyin"
  | Xiaohongshu => py "xiaohongshu"
  end.

(** What [process_all_html_files] returns: it has no [return] with a value. *)
Inductive retval : Type := RNone | RInt (n : Z).

Definition snapshot_le (a b : snapshot) : Prop := text_le (name a) (name b).

#[global] Instance snapshot_le_dec : RelDecision snapshot_le.
Proof. intros a b. unfold snapshot_le. apply _. Defined.

Section Driver.
(** [str.lower], the lowercase mapping of Unicode. *)
Variable lower : text -> text.

Definition process_html_file (html_file : snapshot) : M entry :=
  let html_content := content html_file in
  let filename := lower (name html_file) in
  found ←
    (if contains (py "bilibili") filename then
       n ← lift (extract_bilibili_followers html_content);
       mret (Some Bilibili, n)
     else if contains (py "douyin") filename then
       n ← lift (extract_douyin_followers html_content);
       mret (Some Douyin, n)
     else if contains (py "xiaohongshu") filename then
       n ← lift (extract_xiaohongshu_followers html_content);
       mret (Some Xiaohongshu, n)
     else mret (None, None));
  match found with
  | (Some p, Some n) =>
      ts ← extract_timestamp_from_filename filename;
      mret {| platform := platform_name p; followers := n;
              timestamp := ts; source_file := name html_file |}
  | _ =>
      print (CouldNotExtract (name html_file));;
      raise (Exception (py "Could not extract data from " ++ name html_file))
  end.

(** The loop of [process_all_html_files]; [entry] is a non-empty
    dictionary, so [if entry:] always holds. *)
Fixpoint process_files (html_files : list snapshot) (processed : nat)
  : M nat :=
  match html_files with
  | [] => mret processed
  | html_file :: rest =>
      print (Processing (name html_file));;
      new_entry ← process_html_file html_file;
      append_data new_entry;;
      print Blank;;
      process_files rest (S processed)
  end.

(** [cache] is [None] when the cache directory does not exist, and
    otherwise the files [glob('*.html')] finds in it. *)
Definition process_all_html_files (cache : option (list snapshot))
  : M retval :=
  match cache with
  | None => print DirNotFound;; mret RNone
  | Some [] => print NoHtmlFiles;; mret RNone
  | Some html_files =>
      print Rule;; print (ProcessingCount (length html_files));;
      print Rule;;
      processed ← process_files (merge_sort snapshot_le html_files) 0;
      print Rule;; print (Processed processed (length html_files));;
      print SavedTo;; print Rule;;
      display_summary;;
      mret RNone
  end.
End Driver.

(** [str.lower] on ASCII text. *)
Definition ascii_lower (s : text) : text :=
  map (fun c => if between "A" "Z" c then (c + 32)%N else c) s.

(** ** Sample data *)

(** A world for examples: no history file, nothing printed, and a clock
    that reads 2026-01-02 03:04:05.000007. *)
Definition sample_world : world :=
  {| history_file := Absent; stdout := [];
     clock := fun _ => {| year := 2026; month := 1; day := 2; hour := 3;
                          minute := 4; second := 5; microsecond := 7 |};
     ticks := 0 |}.

(** The count the store holds for a date and a platform. *)
Definition count_at (h : history) (date platform : text) : option Z :=
  day_entry ← h !! date; day_entry !! platform.

(** The world after more lines are printed. *)
Definition emit (w : world) (ls : list line) : world :=
  {| history_file := history_file w; stdout := stdout w ++ ls;
     clock := clock w; ticks := ticks w |}.

(** What [load_existing_data] returns in a world. *)
Definition loaded (w : world) : history :=
  match history_file w with
  | Stored h => h
  | _ => ∅
  end.

(** The store with the count of a platform set for a date. *)
Definition merged (h : history) (date platform : text) (count : Z) : history :=
  <[date := <[platform := count]> (default ∅ (h !! date))]> h.

(** The entry of the merge example. *)
Definition bilibili_532 : entry :=
  {| platform := py "bilibili"; followers := 532;
     timestamp := py "2025-11-12T15:47:53";
     source_file := py "bilibili_20251112_154753.html" |}.

(** The platform [process_html_file] takes a (lowercase) filename for. *)
Definition platform_of (filename : text) : option Platform :=
  if contains (py "bilibili") filename then Some Bilibili
  else if contains (py "douyin") filename then Some Douyin
  else if contains (py "xiaohongshu") filename then Some Xiaohongshu
  else None.


(** The message of the exception [process_html_file] raises. *)
Definition could_not_extract (html_file : snapshot) : exn :=
  Exception (py "Could not extract data from " ++ name html_file).

(** A directory of three snapshots, the second of no known platform. *)
Definition three_files : list snapshot :=
  [ {| name := py "douyin_20251113_100000.html";
       content := py "<html>" ++ element Douyin (doc_attrs Douyin) 5439
                  ++ py "</html>" |};
    {| name := py "bilibili_20251112_100000.html";
       content := py "<html>" ++ element Bilibili (doc_attrs Bilibili) 532
                  ++ py "</html>" |};
    {| name := py "c_notes_20251112_110000.html";
       content := py "<html></html>" |} ].

(** The end of [process_all_html_files], after its loop. *)
Definition finish (html_files : list snapshot) (processed : nat) : M retval :=
  print Rule;; print (Processed processed (length html_files));;
  print SavedTo;; print Rule;;
  display_summary;;
  mret RNone.

(** The lines [display_summary] prints for one date. *)
Definition date_lines (h : history) (date : text) : list line :=
  DateHeading date
  :: map (fun item => PlatformLine item.1 item.2)
       (sorted_items (map_to_list (default ∅ (h !! date)))).

(** The growth line of a platform between two dates: none when the
    platform lacks a count at either date, and an exception when the
    percentage overflows. *)
Definition growth_row (h : history) (first_date last_date platform : text)
  : option (result line) :=
  match count_at h first_date platform, count_at h last_date platform with
  | Some first_count, Some last_count =>
      let growth := (last_count - first_count)%Z in
      Some match growth_pct_of growth first_count with
           | Ok growth_pct =>
               Ok (GrowthLine platform first_count last_count growth
                     growth_pct)
           | Raise e => Raise e
           end
  | _, _ => None
  end.

(** The lines of a list of rows up to the first exception, and that
    exception. *)
Fixpoint collect (rows : list (option (result line)))
  : list line * option exn :=
  match rows with
  | [] => ([], None)
  | None :: rest => collect rest
  | Some (Ok l) :: rest => let '(ls, e) := collect rest in (l :: ls, e)
  | Some (Raise e) :: _ => ([], Some e)
  end.

(** A store of three dates: bilibili has counts on the first two, douyin
    on the last two. *)
Definition staggered_store : history :=
  {[ py "2025-11-12" := {[ py "bilibili" := 100%Z ]};
     py "2025-11-13" := {[ py "bilibili" := 150%Z; py "douyin" := 5%Z ]};
     py "2025-11-14" := {[ py "douyin" := 7%Z ]} ]}.

(** A store of two dates with bilibili at 100 and then at 150. *)
Definition growth_store : history :=
  {[ py "2025-11-12" := {[ py "bilibili" := 100%Z ]};
     py "2025-11-14" := {[ py "bilibili" := 150%Z ]} ]}.

Definition world_with (h : history) : world :=
  {| history_file := Stored h; stdout := [];
     clock := clock sample_world; ticks := 0 |}.

(** The two snapshots of the end-to-end scenario. *)
Definition two_files : list snapshot := take 2 three_files.

(** The world [load_existing_data] leaves. *)
Definition after_load (w : world) : world :=
  match history_file w with
  | Unreadable e => emit w [ErrorLoading e]
  | _ => w
  end.

(** What [display_summary] prints for a store, and the exception it ends
    with, if any. *)
Definition summary_lines (h : history) : list line * option exn :=
  if decide (h = ∅) then ([NoData], None)
  else
    let sorted_dates := sorted (map fst (map_to_list h)) in
    let first_date := hd [] sorted_dates in
    let last_date := List.last sorted_dates [] in
    let head :=
      [Rule; SummaryTitle; Rule; TotalDates (length sorted_dates);
       DateRange first_date last_date; DataByDate]
      ++ concat (map (date_lines h) sorted_dates) in
    if decide (1 < length sorted_dates) then
      match collect (map (growth_row h first_date last_date)
                       tracked_platforms) with
      | (ls, None) => (head ++ GrowthTitle :: ls ++ [Rule], None)
      | (ls, Some e) => (head ++ GrowthTitle :: ls, Some e)
      end
    else (head ++ [Rule], None).

(** ** Auxiliary notions of the proofs *)


(** A two-digit field is read back by [strptime]: its numeral passes the
    test of the field and has its value. *)
Definition field_reads (ok : N -> N -> bool) (v : Z) : bool :=
  match pad 2 v with
  | [c1; c2] =>
      ok c1 c2 &&
      match int_acc 0 [c1; c2] with Some z => (z =? v)%Z | None => false end
  | _ => false
  end.

(** The same for the four digits of the year. *)
Definition year_reads (v : Z) : bool :=
  match pad 4 v with
  | [c1; c2; c3; c4] =>
      forallb is_digit [c1; c2; c3; c4] &&
      match int_acc 0 [c1; c2; c3; c4] with
      | Some z => (z =? v)%Z
      | None => false
      end
  | _ => false
  end.


(** A computation only adds lines to what is printed. *)
Definition grows {A : Type} (c : M A) : Prop :=
  forall w, exists ls, stdout (c w).2 = stdout w ++ ls.

(** ** Further notions for the properties of the code *)


(** Text between two tags: no [<]. *)
Definition gap_text (gap : text) : bool :=
  forallb (fun c => negb (c =? ch "<")%N) gap.


(** The xiaohongshu counter with any text [shown] as its count. *)
Definition xiaohongshu_shown (a : attrs) (shown : text) : text :=
  py "<span class='count'" ++ attr1 a ++ py ">" ++ shown
  ++ py "</span><span class='shows'" ++ attr2 a ++ py ">" ++ fans
  ++ py "</span>".

(** The bilibili counter with the number [title] in its [title]
    attribute and any text [shown] as what the page shows. *)
Definition bilibili_shown (a : attrs) (title : N) (shown : text) : text :=
  py "<span" ++ attr1 a ++ py "class='nav-statistics__item-text'>"
  ++ fans_count ++ py "</span><span" ++ attr2 a
  ++ py "class='nav-statistics__item-num'" ++ attr3 a ++ py "title='"
  ++ decimal title ++ py "'>" ++ shown ++ py "</span>".



(** The date a line of the summary heads, if it is a date heading. *)
Definition heading (l : line) : option text :=
  match l with
  | DateHeading date => Some date
  | _ => None
  end.

(** The dates of the date headings among printed lines, in order. *)
Definition headings (ls : list line) : list text := omap heading ls.

(** A line of the data by date: a date heading or the count of a
    platform. *)
Definition is_data (l : line) : bool :=
  match l with
  | DateHeading _ | PlatformLine _ _ => true
  | _ => false
  end.

(** The date under which [append_data] files an entry. *)
Definition date_of (e : entry) : text := split_first (ch "T") (timestamp e).

(** ** Snapshot files of the monitor ([simple_monitor.py]) *)

(** [dt.strftime('%Y%m%d_%H%M%S')], for a year of four digits (the width
    of [%Y] for an earlier year is the choice of the C library). *)
Definition strftime (dt : datetime) : text :=
  date_token dt ++ py "_" ++ time_token dt.

(** What the monitor acts on: the files of [self.html_dir] by name, the
    names it has printed as saved, and the wall clock. *)
Record monitor : Type := {
  html_dir : gmap text text;
  saved_names : list text;       (* oldest first *)
  wall_clock : nat -> datetime;  (* successive readings of the wall clock *)
  clock_reads : nat              (* readings taken so far *)
}.

(** [f'{platform}_{timestamp}.html'] *)
Definition html_file_name (platform timestamp : text) : text :=
  platform ++ py "_" ++ timestamp ++ py ".html".

(** [_save_html]; what it returns is the name of the file within
    [self.html_dir]. *)
Definition _save_html (content platform : text) (timestamp : option text)
    (m : monitor) : text * monitor :=
  let '(timestamp, reads) :=
    match timestamp with
    | Some timestamp => (timestamp, clock_reads m)
    | None => (strftime (wall_clock m (clock_reads m)), S (clock_reads m))
    end in
  let html_file := html_file_name platform timestamp in
  (html_file,
   {| html_dir := <[html_file := content]> (html_dir m);
      saved_names := saved_names m ++ [html_file];
      wall_clock := wall_clock m; clock_reads := reads |}).

(** The capture step of [get_douyin_stats], [get_xiaohongshu_stats] and
    [get_bilibili_stats] in mode [get_data], on the content the browser
    returns for the page:
    [timestamp = datetime.now().strftime('%Y%m%d_%H%M%S')],
    [self._save_html(html_content, platform, timestamp)]. *)
Definition capture (platform html_content : text) (m : monitor)
  : text * monitor :=
  let timestamp := strftime (wall_clock m (clock_reads m)) in
  _save_html html_content platform (Some timestamp)
    {| html_dir := html_dir m; saved_names := saved_names m;
       wall_clock := wall_clock m; clock_reads := S (clock_reads m) |}.

(** [dt.replace(microsecond=0)] *)
Definition to_second (dt : datetime) : datetime :=
  {| year := year dt; month := month dt; day := day dt; hour := hour dt;
     minute := minute dt; second := second dt; microsecond := 0 |}.

(** The time of [dt] to the second, as the number [YYYYMMDDHHMMSS]. *)
Definition stamp (dt : datetime) : Z :=
  (((((year dt * 100 + month dt) * 100 + day dt) * 100 + hour dt) * 100
    + minute dt) * 100 + second dt)%Z.

(** A monitor for examples: an empty cache directory and a clock that
    reads 2025-11-12 15:47:53.250000. *)
Definition sample_monitor : monitor :=
  {| html_dir := ∅; saved_names := [];
     wall_clock := fun _ => {| year := 2025; month := 11; day := 12;
                               hour := 15; minute := 47; second := 53;
                               microsecond := 250000 |};
     clock_reads := 0 |}.

(** A capture of the monitor: the platform, the reading of the clock and
    the page. *)
Record captured : Type := {
  of_platform : Platform;
  taken_at : datetime;
  page : text
}.

(** The file a capture leaves in the cache directory. *)
Definition snapshot_of (c : captured) : snapshot :=
  {| name := html_file_name (platform_name (of_platform c))
               (strftime (taken_at c));
     content := page c |}.

(** The date under which the count of a capture is filed:
    [YYYY-MM-DD]. *)
Definition date_key (dt : datetime) : text :=
  pad 4 (year dt) ++ py "-" ++ pad 2 (month dt) ++ py "-" ++ pad 2 (day dt).

(** The count the extractor of its platform finds in the page of a
    capture. *)
Definition count_of (c : captured) : option Z :=
  match extract (of_platform c) (page c) with
  | Ok n => n
  | Raise _ => None
  end.

(** The store with the count of a capture merged in. *)
Definition merge_captured (h : history) (c : captured) : history :=
  match count_of c with
  | Some n =>
      merged h (date_key (taken_at c)) (platform_name (of_platform c)) n
  | None => h
  end.

(** A capture the batch run can process: a clock reading with a year of
    four digits, a page with the counter of its platform, and a name that
    [str.lower] leaves as it is. *)
Definition usable (lower : text -> text) (c : captured) : Prop :=
  valid_datetime (taken_at c) = true /\ (1000 <= year (taken_at c))%Z /\
  is_Some (count_of c) /\
  lower (name (snapshot_of c)) = name (snapshot_of c).

(** Two captures of douyin on one day, the later one first. *)
Definition two_captures : list captured :=
  [ {| of_platform := Douyin;
       taken_at := {| year := 2025; month := 11; day := 12; hour := 18;
                      minute := 0; second := 0; microsecond := 0 |};
       page := element Douyin (doc_attrs Douyin) 5440 |};
    {| of_platform := Douyin;
       taken_at := {| year := 2025; month := 11; day := 12; hour := 9;
                      minute := 30; second := 0; microsecond := 0 |};
       page := element Douyin (doc_attrs Douyin) 5439 |} ].

(** * Properties *)

(** ** Digits and numerals *)

Lemma digit_value_ascii (c : N) :
  is_ascii_digit c = true -> digit_value c = Some (c - 48)%N.
Proof.
  unfold is_ascii_digit, digit_value. intros H.
  apply andb_true_iff in H as [H1 H2].
  apply N.leb_le in H1, H2.
  assert (Hf : ((48 <=? c)%N && (c <? 48 + 10)%N) = true).
  { apply andb_true_iff. split; [apply N.leb_le | apply N.ltb_lt]; lia. }
  simpl. rewrite Hf. reflexivity.
Qed.

Lemma is_digit_ascii (c : N) : is_ascii_digit c = true -> is_digit c = true.
Proof. intros H. unfold is_digit. by rewrite (digit_value_ascii c H). Qed.





Lemma decimal_fuel_digits (fuel : nat) (n : N) (acc : text) :
  forallb is_ascii_digit acc = true ->
  forallb is_ascii_digit (decimal_fuel fuel n acc) = true.
Proof.
  revert n acc. induction fuel as [|f IH]; intros n acc Hacc; simpl; [done|].
  assert (Hd : is_ascii_digit (48 + n mod 10) = true).
  { assert (n mod 10 < 10)%N by (apply N.mod_upper_bound; lia).
    generalize dependent (n mod 10)%N. intros d Hd.
    unfold is_ascii_digit. apply andb_true_iff. split; apply N.leb_le; lia. }
  destruct (n <? 10)%N.
  - simpl. by rewrite Hd.
  - apply IH. simpl. by rewrite Hd.
Qed.




Lemma decimal_ascii (n : N) : forallb is_ascii_digit (decimal n) = true.
Proof. by apply decimal_fuel_digits. Qed.

Lemma forallb_impl {A : Type} (P Q : A -> bool) (l : list A) :
  (forall x, P x = true -> Q x = true) ->
  forallb P l = true -> forallb Q l = true.
Proof.
  intros HPQ. induction l as [|x l IH]; simpl; [done|].
  intros H. apply andb_true_iff in H as [H1 H2].
  by rewrite (HPQ x H1), (IH H2).
Qed.

Lemma decimal_digits (n : N) : forallb is_digit (decimal n) = true.
Proof. apply (forallb_impl _ _ _ is_digit_ascii), decimal_ascii. Qed.


Lemma int_acc_digits (s : text) (acc : Z) :
  forallb is_digit s = true -> is_Some (int_acc acc s).
Proof.
  revert acc. induction s as [|c s IH]; intros acc H; simpl in *; [by eexists|].
  apply andb_true_iff in H as [H1 H2]. unfold is_digit in H1.
  destruct (digit_value c); [by apply IH | done].
Qed.

(** [int] does not raise on a non-empty run of digits. *)
Lemma int_digits (s : text) :
  s <> [] -> forallb is_digit s = true -> exists z, int s = Ok z.
Proof.
  intros Hne H. unfold int. destruct s as [|c s]; [done|].
  destruct (int_acc_digits (c :: s) 0 H) as [z Hz]. rewrite Hz. by eexists.
Qed.

(** ** The matcher and the words of a pattern *)

Lemma strip_app (l s : text) : strip l (l ++ s) = Some s.
Proof. induction l as [|a l IH]; simpl; [done|]. by rewrite N.eqb_refl. Qed.

Lemma strip_Some (l s s' : text) : strip l s = Some s' -> s = l ++ s'.
Proof.
  revert s. induction l as [|a l IH]; intros s; simpl.
  - by intros [= ->].
  - destruct s as [|b s]; [done|].
    destruct (a =? b)%N eqn:E; [|done].
    apply N.eqb_eq in E as ->. intros H. by rewrite (IH _ H).
Qed.

Section MatcherFacts.
Context {R : Type}.
Implicit Types (k : text -> option R) (K : text -> caps -> option R).

Lemma m_star_sound c s k x :
  m_star c s k = Some x ->
  exists w s', s = w ++ s' /\ forallb (in_class c) w = true /\ k s' = Some x.
Proof.
  induction s as [|a s IH]; simpl.
  - intros H. by exists [], [].
  - destruct (in_class c a) eqn:Ea.
    + destruct (m_star c s k) as [r|] eqn:Es.
      * intros [= ->]. destruct (IH eq_refl) as (w & s' & -> & Hw & Hk).
        exists (a :: w), s'. simpl. by rewrite Ea.
      * intros H. by exists [], (a :: s).
    + intros H. by exists [], (a :: s).
Qed.

Lemma m_star_here c s k x : k s = Some x -> is_Some (m_star c s k).
Proof.
  intros H. destruct s as [|a s]; simpl; [by eexists|].
  destruct (in_class c a); [|by eexists].
  destruct (m_star c s k); by eexists.
Qed.

Lemma m_star_complete c w s' k x :
  forallb (in_class c) w = true -> k s' = Some x ->
  is_Some (m_star c (w ++ s') k).
Proof.
  intros Hw Hk. induction w as [|a w IH]; simpl in *.
  - by apply (m_star_here _ _ _ x).
  - apply andb_true_iff in Hw as [Ha Hw]. rewrite Ha.
    destruct (IH Hw) as [r ->]. by eexists.
Qed.



Lemma m_lazy_sound c s k x :
  m_lazy c s k = Some x ->
  exists w s', s = w ++ s' /\ forallb (in_class c) w = true /\ k s' = Some x.
Proof.
  induction s as [|a s IH]; simpl.
  - destruct (k []) eqn:E; [|done]. intros [= ->]. by exists [], [].
  - destruct (k (a :: s)) eqn:E.
    + intros [= ->]. by exists [], (a :: s).
    + destruct (in_class c a) eqn:Ea; [|done].
      intros H. destruct (IH H) as (w & s' & -> & Hw & Hk).
      exists (a :: w), s'. simpl. by rewrite Ea.
Qed.

(** A lazy run hands the empty extent to the continuation first. *)
Lemma m_lazy_first c s k v : k s = Some v -> m_lazy c s k = Some v.
Proof. intros H. destruct s; simpl; by rewrite H. Qed.

Lemma m_lazy_complete c w s' k x :
  forallb (in_class c) w = true -> k s' = Some x ->
  is_Some (m_lazy c (w ++ s') k).
Proof.
  intros Hw Hk. induction w as [|a w IH]; simpl in *.
  - rewrite (m_lazy_first _ _ _ x Hk). by eexists.
  - apply andb_true_iff in Hw as [Ha Hw]. rewrite Ha.
    destruct (k (a :: w ++ s')); [by eexists | by apply IH].
Qed.

Lemma m_rep_sound n c s k x :
  m_rep n c s k = Some x ->
  exists w s', s = w ++ s' /\ length w = n /\
               forallb (in_class c) w = true /\ k s' = Some x.
Proof.
  revert s. induction n as [|n IH]; intros s; simpl.
  - intros H. by exists [], s.
  - destruct s as [|a s]; [done|].
    destruct (in_class c a) eqn:Ea; [|done].
    intros H. destruct (IH _ H) as (w & s' & -> & Hl & Hw & Hk).
    exists (a :: w), s'. simpl. by rewrite Ea, Hl.
Qed.

(** A counted run has one extent. *)
Lemma m_rep_exact n c w s' k :
  length w = n -> forallb (in_class c) w = true ->
  m_rep n c (w ++ s') k = k s'.
Proof.
  revert n. induction w as [|a w IH]; intros n Hl Hw; simpl in *.
  - by subst n.
  - subst n. simpl. apply andb_true_iff in Hw as [Ha Hw]. rewrite Ha.
    by apply IH.
Qed.

Lemma capture_extent (w s' : text) :
  take (length (w ++ s') - length s') (w ++ s') = w.
Proof.
  rewrite length_app, Nat.add_sub. by rewrite take_app_length.
Qed.

(** Soundness: an answer of the matcher comes from a word of the
    pattern at the head of the text. *)
Lemma m_sound r : forall s g K x,
  m r s g K = Some x ->
  exists w s' g', s = w ++ s' /\ Matches r w g' /\ K s' (g ++ g') = Some x.
Proof.
  induction r as [l|c|c|c|n c|r IH|r1 IH1 r2 IH2]; intros s g K x; simpl.
  - destruct (strip l s) as [s'|] eqn:E; [|done].
    intros H. exists l, s', []. rewrite app_nil_r.
    split; [by apply strip_Some|]. split; [constructor | done].
  - intros H. destruct (m_star_sound _ _ _ _ H) as (w & s' & -> & Hw & Hk).
    exists w, s', []. rewrite app_nil_r. split; [done|].
    split; [by constructor | done].
  - intros H. destruct (m_lazy_sound _ _ _ _ H) as (w & s' & -> & Hw & Hk).
    exists w, s', []. rewrite app_nil_r. split; [done|].
    split; [by constructor | done].
  - destruct s as [|a s]; [done|].
    destruct (in_class c a) eqn:Ea; [|done].
    intros H. destruct (m_star_sound _ _ _ _ H) as (w & s' & -> & Hw & Hk).
    exists (a :: w), s', []. rewrite app_nil_r. split; [done|].
    split; [|done]. constructor; [done|]. simpl. by rewrite Ea.
  - intros H.
    destruct (m_rep_sound _ _ _ _ _ H) as (w & s' & -> & Hl & Hw & Hk).
    exists w, s', []. rewrite app_nil_r. split; [done|].
    split; [by constructor | done].
  - intros H. destruct (IH _ _ _ _ H) as (w & s' & g' & -> & Hm & Hk).
    rewrite capture_extent in Hk.
    exists w, s', (g' ++ [w]). split; [done|].
    split; [by constructor|]. by rewrite app_assoc.
  - intros H. destruct (IH1 _ _ _ _ H) as (w1 & s1 & g1 & -> & Hm1 & Hk1).
    destruct (IH2 _ _ _ _ Hk1) as (w2 & s2 & g2 & -> & Hm2 & Hk2).
    exists (w1 ++ w2), s2, (g1 ++ g2). rewrite <- app_assoc.
    split; [done|]. split; [by constructor|]. by rewrite app_assoc.
Qed.

(** Completeness: where a word of the pattern heads the text and the
    continuation accepts what follows, the matcher answers. *)
Lemma m_complete r w g' :
  Matches r w g' ->
  forall s' g K x, K s' (g ++ g') = Some x -> is_Some (m r (w ++ s') g K).
Proof.
  induction 1 as [l|c w Hw|c w Hw|c w Hne Hw|n c w Hl Hw|r w g' Hm IH
                 |r1 r2 w1 w2 g1 g2 Hm1 IH1 Hm2 IH2];
    intros s' g K x HK; simpl.
  - rewrite strip_app. rewrite app_nil_r in HK. by eexists.
  - rewrite app_nil_r in HK.
    by apply (m_star_complete _ _ _ _ x).
  - rewrite app_nil_r in HK.
    by apply (m_lazy_complete _ _ _ _ x).
  - rewrite app_nil_r in HK. destruct w as [|a w]; [done|].
    simpl in *. apply andb_true_iff in Hw as [Ha Hw]. rewrite Ha.
    by apply (m_star_complete _ _ _ (fun s'' => K s'' g) x).
  - rewrite app_nil_r in HK. rewrite m_rep_exact by done. by eexists.
  - apply (IH _ _ _ x). rewrite capture_extent. by rewrite <- app_assoc.
  - rewrite <- app_assoc.
    rewrite app_assoc in HK. destruct (IH2 _ _ _ _ HK) as [y Hy].
    by apply (IH1 _ _ _ y).
Qed.
End MatcherFacts.


Lemma match_here_Some (r : regex) (s : text) (g : caps) :
  match_here r s = Some g -> exists w rest, s = w ++ rest /\ Matches r w g.
Proof.
  intros H. destruct (m_sound r _ _ _ _ H) as (w & s' & g' & -> & Hm & [= <-]).
  by exists w, s'.
Qed.

Lemma match_here_None (r : regex) (s : text) :
  match_here r s = None <->
  ~ exists w rest g, s = w ++ rest /\ Matches r w g.
Proof.
  split.
  - intros H (w & rest & g & -> & Hm).
    destruct (m_complete r w g Hm rest [] (fun _ g => Some g) g eq_refl)
      as [y Hy].
    unfold match_here in H. congruence.
  - intros H. destruct (match_here r s) as [g|] eqn:E; [|done].
    destruct (match_here_Some _ _ _ E) as (w & rest & -> & Hm).
    destruct H. by exists w, rest, g.
Qed.

Lemma occurs_at_0 (r : regex) (s : text) :
  occurs_at r s 0 <-> exists w rest g, s = w ++ rest /\ Matches r w g.
Proof.
  unfold occurs_at. rewrite drop_0. split; [by intros [_ ?]|].
  intros H. split; [lia | done].
Qed.

Lemma occurs_at_S (r : regex) (a : N) (s : text) (i : nat) :
  occurs_at r (a :: s) (S i) <-> occurs_at r s i.
Proof. unfold occurs_at. simpl. split; intros [? ?]; (split; [lia | done]). Qed.

(** [re.search] finds nothing exactly when the pattern occurs nowhere. *)
Lemma search_None (r : regex) (s : text) :
  search r s = None <-> ~ occurs r s.
Proof.
  induction s as [|a s IH]; simpl.
  - destruct (match_here r []) as [g|] eqn:E.
    + split; [done|]. intros H. destruct H. exists 0.
      apply occurs_at_0. destruct (match_here_Some _ _ _ E) as (w & rest & ? & ?).
      by exists w, rest, g.
    + split; [|done]. intros _ [i Hi].
      destruct Hi as [Hle Hi]. simpl in Hle. assert (i = 0) as -> by lia.
      rewrite drop_0 in Hi. by apply match_here_None in E.
  - destruct (match_here r (a :: s)) as [g|] eqn:E.
    + split; [done|]. intros H. destruct H. exists 0.
      apply occurs_at_0. destruct (match_here_Some _ _ _ E) as (w & rest & ? & ?).
      by exists w, rest, g.
    + rewrite IH. split.
      * intros Hs [i Hi]. destruct i as [|i].
        -- apply occurs_at_0 in Hi. by apply match_here_None in E.
        -- apply occurs_at_S in Hi. apply Hs. by exists i.
      * intros Hs [i Hi]. apply Hs. exists (S i). by apply occurs_at_S.
Qed.

(** [re.search] passes over a prefix in which no occurrence begins. *)
Lemma search_skip (r : regex) (pre t : text) :
  (forall j, j < length pre -> ~ occurs_at r (pre ++ t) j) ->
  search r (pre ++ t) = search r t.
Proof.
  induction pre as [|a pre IH]; intros H; [done|].
  assert (E : match_here r ((a :: pre) ++ t) = None).
  { apply match_here_None. intros Hm. apply (H 0); [simpl; lia|].
    by apply occurs_at_0. }
  change (search r ((a :: pre) ++ t)) with
    (match match_here r ((a :: pre) ++ t) with
     | Some g => Some g
     | None => search r (pre ++ t)
     end).
  rewrite E. apply IH. intros j Hj Ho.
  apply (H (S j)); [simpl; lia|]. by apply occurs_at_S.
Qed.

Lemma search_here (r : regex) (s : text) (g : caps) :
  match_here r s = Some g -> search r s = Some g.
Proof. intros H. destruct s; simpl; by rewrite H. Qed.

(** What [re.search] returns are the groups of a word of the pattern. *)
Lemma search_Some (r : regex) (s : text) (g : caps) :
  search r s = Some g ->
  exists i w rest, i <= length s /\ drop i s = w ++ rest /\ Matches r w g.
Proof.
  induction s as [|a s IH]; simpl.
  - destruct (match_here r []) as [g'|] eqn:E; [|done]. intros [= ->].
    destruct (match_here_Some _ _ _ E) as (w & rest & ? & ?).
    exists 0, w, rest. by rewrite drop_0.
  - destruct (match_here r (a :: s)) as [g'|] eqn:E.
    + intros [= ->].
      destruct (match_here_Some _ _ _ E) as (w & rest & ? & ?).
      exists 0, w, rest. rewrite drop_0. split; [lia | done].
    + intros H. destruct (IH H) as (i & w & rest & Hi & Hd & Hm).
      exists (S i), w, rest. simpl. split; [lia | done].
Qed.

(** ** Runs that end at a stop character *)

(** Two runs of a class, each followed by a character outside it: when
    the texts agree, so do the runs and what follows. *)
Lemma first_stop (c : cclass) (u u' r r' : text) (q q' : N) :
  forallb (in_class c) u = true -> forallb (in_class c) u' = true ->
  in_class c q = false -> in_class c q' = false ->
  u ++ q :: r = u' ++ q' :: r' -> u = u' /\ q = q' /\ r = r'.
Proof.
  revert u'. induction u as [|a u IH]; intros u' Hu Hu' Hq Hq' E.
  - destruct u' as [|a' u']; simpl in *.
    + by injection E as -> ->.
    + injection E as -> _. apply andb_true_iff in Hu' as [Ha _]. congruence.
  - destruct u' as [|a' u']; simpl in *.
    + injection E as -> _. apply andb_true_iff in Hu as [Ha _]. congruence.
    + injection E as -> E. apply andb_true_iff in Hu as [_ Hu].
      apply andb_true_iff in Hu' as [_ Hu'].
      destruct (IH u' Hu Hu' Hq Hq' E) as (-> & -> & ->). done.
Qed.

(** The same from the right end: the runs follow a character outside the
    class and close the texts. *)
Lemma last_stop (c : cclass) (u u' r r' : text) (q q' : N) :
  forallb (in_class c) u = true -> forallb (in_class c) u' = true ->
  in_class c q = false -> in_class c q' = false ->
  r ++ q :: u = r' ++ q' :: u' -> u = u' /\ r = r'.
Proof.
  intros Hu Hu' Hq Hq' E.
  apply (f_equal (@rev N)) in E. rewrite !rev_app_distr in E. simpl in E.
  rewrite <- !app_assoc in E. simpl in E.
  assert (Hr : forall l, forallb (in_class c) l = true ->
                         forallb (in_class c) (rev l) = true).
  { intros l Hl. apply forallb_forall. intros x Hx. apply in_rev in Hx.
    by apply (proj1 (forallb_forall _ _) Hl). }
  destruct (first_stop c _ _ _ _ _ _ (Hr _ Hu) (Hr _ Hu') Hq Hq' E)
    as (E1 & _ & E2).
  split; by apply rev_inj.
Qed.

(** ** The three patterns on their counter elements *)

Section Steps.
Context {R : Type}.
Implicit Types (K : text -> caps -> option R).

Lemma m_lit_app l r s g K : m (Lit l +> r) (l ++ s) g K = m r s g K.
Proof. simpl. by rewrite strip_app. Qed.




End Steps.








(** Takes the derivation of a word apart. *)
Ltac inv_word :=
  repeat match goal with
    | H : Matches (_ +> _) _ _ |- _ => inversion H; clear H; subst
    | H : Matches (Lit _) _ _ |- _ => inversion H; clear H; subst
    | H : Matches (Star _) _ _ |- _ => inversion H; clear H; subst
    | H : Matches (LazyStar _) _ _ |- _ => inversion H; clear H; subst
    | H : Matches (Plus _) _ _ |- _ => inversion H; clear H; subst
    | H : Matches (Rep _ _) _ _ |- _ => inversion H; clear H; subst
    | H : Matches (Group _) _ _ |- _ => inversion H; clear H; subst
    end.

(** The first group of each pattern is a non-empty run of digits. *)
Lemma pattern_group1 (p : Platform) (w : text) (g : caps) :
  Matches (pattern_of p) w g ->
  group 1 g <> [] /\ forallb is_digit (group 1 g) = true.
Proof.
  intros H. destruct p; simpl in H;
    unfold bilibili_pattern, douyin_pattern, xiaohongshu_pattern in H;
    inv_word; simpl; split; assumption.
Qed.

Lemma timestamp_words (w : text) (g : caps) :
  Matches timestamp_pattern w g ->
  exists d t, w = d ++ py "_" ++ t /\ g = [d; t] /\
              length d = 8 /\ forallb is_digit d = true /\
              length t = 6 /\ forallb is_digit t = true.
Proof.
  intros H. unfold timestamp_pattern in H. inv_word.
  eexists _, _. split; [reflexivity|]. split; [reflexivity|]. done.
Qed.

Lemma tag_text_app (a b : text) :
  tag_text (a ++ b) = tag_text a && tag_text b.
Proof. apply forallb_app. Qed.

(** Two tags that carry the same attribute literal and agree as texts end
    at the same place. *)
Lemma tag_end_unique (l a1 a2 x1 x2 r r' : text) :
  tag_text l = true -> tag_text a1 = true -> tag_text a2 = true ->
  tag_text x1 = true -> tag_text x2 = true ->
  a1 ++ l ++ a2 ++ py ">" ++ r = x1 ++ l ++ x2 ++ py ">" ++ r' ->
  a1 ++ l ++ a2 = x1 ++ l ++ x2 /\ r = r'.
Proof.
  intros Hl H1 H2 H3 H4 E.
  destruct (first_stop NotGt (a1 ++ l ++ a2) (x1 ++ l ++ x2) r r' 62 62)
    as (? & _ & ?); try done.
  - change (tag_text (a1 ++ l ++ a2) = true).
    by rewrite !tag_text_app, H1, Hl, H2.
  - change (tag_text (x1 ++ l ++ x2) = true).
    by rewrite !tag_text_app, H3, Hl, H4.
  - rewrite <- !app_assoc. exact E.
Qed.


Lemma digit_tag_text (D : text) : forallb is_digit D = true -> tag_text D = true.
Proof.
  apply forallb_impl. intros x Hx. simpl.
  destruct (x =? 62)%N eqn:E; [|done].
  apply N.eqb_eq in E as ->. done.
Qed.

(** Two tags that end in the same attribute with a run of digits as its
    quoted value and agree as texts carry the same digits. *)
Lemma quoted_value_unique (l t a2 a3 x2 x3 D E1 r r' : text) :
  tag_text l = true -> tag_text a2 = true -> tag_text a3 = true ->
  tag_text x2 = true -> tag_text x3 = true -> tag_text t = true ->
  forallb is_digit D = true -> forallb is_digit E1 = true ->
  a2 ++ l ++ a3 ++ (t ++ py "'") ++ D ++ py "'>" ++ r
  = x2 ++ l ++ x3 ++ (t ++ py "'") ++ E1 ++ py "'>" ++ r' ->
  D = E1 /\ r = r'.
Proof.
  intros Hl H2 H3 H2' H3' Ht HD HE E.
  pose proof (digit_tag_text _ HD) as HD'.
  pose proof (digit_tag_text _ HE) as HE'.
  destruct (first_stop NotGt
              ((a2 ++ l ++ a3 ++ t) ++ 34%N :: D ++ [34%N])
              ((x2 ++ l ++ x3 ++ t) ++ 34%N :: E1 ++ [34%N]) r r' 62 62)
    as (Eu & _ & Er); try done.
  - change (tag_text ((a2 ++ l ++ a3 ++ t) ++ 34%N :: D ++ [34%N]) = true).
    rewrite !tag_text_app, H2, Hl, H3, Ht. simpl.
    change (forallb (in_class NotGt) (D ++ [34%N])) with (tag_text (D ++ [34%N])).
    by rewrite tag_text_app, HD'.
  - change (tag_text ((x2 ++ l ++ x3 ++ t) ++ 34%N :: E1 ++ [34%N]) = true).
    rewrite !tag_text_app, H2', Hl, H3', Ht. simpl.
    change (forallb (in_class NotGt) (E1 ++ [34%N])) with (tag_text (E1 ++ [34%N])).
    by rewrite tag_text_app, HE'.
  - rewrite <- !app_assoc in E. simpl in E.
    rewrite <- !app_assoc. simpl. rewrite <- !app_assoc. simpl. exact E.
  - split; [|done].
    change (34%N :: D ++ [34%N]) with ((34%N :: D) ++ [34%N]) in Eu.
    change (34%N :: E1 ++ [34%N]) with ((34%N :: E1) ++ [34%N]) in Eu.
    rewrite !app_assoc in Eu. apply app_inj_tail in Eu as [Eu _].
    by destruct (last_stop Digit D E1 _ _ 34 34 HD HE eq_refl eq_refl Eu).
Qed.

Lemma bilibili_words (w : text) (g : caps) :
  Matches bilibili_pattern w g ->
  exists x1 x2 x3 E1 E2,
    w = py "<span" ++ x1
        ++ (py "class='nav-statistics__item-text'>" ++ fans_count
            ++ py "</span><span")
        ++ x2 ++ py "class='nav-statistics__item-num'" ++ x3
        ++ py "title='" ++ E1 ++ py "'>" ++ E2 ++ py "</span>" /\
    g = [E1; E2] /\
    tag_text x1 = true /\ tag_text x2 = true /\ tag_text x3 = true /\
    E1 <> [] /\ forallb is_digit E1 = true /\
    E2 <> [] /\ forallb is_digit E2 = true.
Proof.
  intros H. unfold bilibili_pattern in H. inv_word.
  eexists _, _, _, _, _. split; [reflexivity|]. split; [reflexivity|]. done.
Qed.


(** ** Pattern Extractor: results *)

Lemma extract_pattern (p : Platform) (html_text : text) :
  extract p html_text = extract_with (pattern_of p) html_text.
Proof. by destruct p. Qed.

Lemma int_acc_nonneg (s : text) (acc z : Z) :
  (0 <= acc)%Z -> int_acc acc s = Some z -> (0 <= z)%Z.
Proof.
  revert acc. induction s as [|c s IH]; intros acc Hacc; simpl.
  - intros [= <-]. done.
  - destruct (digit_value c) as [d|]; [|done]. apply IH. lia.
Qed.

Lemma int_nonneg (s : text) (z : Z) : int s = Ok z -> (0 <= z)%Z.
Proof.
  unfold int. destruct s as [|c s]; [done|].
  destruct (int_acc 0 (c :: s)) as [z'|] eqn:E; [|done].
  intros [= <-]. by apply (int_acc_nonneg _ _ _ (Z.le_refl 0) E).
Qed.

(** An extractor returns a count exactly when its pattern occurs, and
    never raises. *)
Lemma extract_cases (p : Platform) (html_text : text) :
  (~ occurs (pattern_of p) html_text /\ extract p html_text = Ok None) \/
  (occurs (pattern_of p) html_text /\
   exists n, (0 <= n)%Z /\ extract p html_text = Ok (Some n)).
Proof.
  rewrite extract_pattern. unfold extract_with.
  destruct (search (pattern_of p) html_text) as [g|] eqn:E.
  - right. destruct (search_Some _ _ _ E) as (i & w & rest & Hi & Hd & Hm).
    split; [exists i; split; [done|]; by exists w, rest, g|].
    destruct (pattern_group1 _ _ _ Hm) as [Hne Hdig].
    destruct (int_digits _ Hne Hdig) as [z Hz]. rewrite Hz.
    exists z. split; [by apply (int_nonneg _ _ Hz) | done].
  - left. split; [by apply search_None | done].
Qed.

(** A check by evaluation that no occurrence begins before position [n]. *)
Lemma no_occurrence_before (r : regex) (s : text) (n : nat) :
  forallb (fun j => match match_here r (drop j s) with
                    | Some _ => false
                    | None => true
                    end) (seq 0 n) = true ->
  forall j, j < n -> ~ occurs_at r s j.
Proof.
  intros H j Hj Ho.
  assert (Hin : In j (seq 0 n)) by (apply in_seq; lia).
  apply (proj1 (forallb_forall _ _) H) in Hin.
  destruct (match_here r (drop j s)) eqn:E; [done|].
  destruct Ho as [_ Ho]. by apply match_here_None in E.
Qed.





(** C2: for every platform and every text in which the platform's pattern
    does not occur, the extractor returns [None]; it returns [None] in no
    other case, so a count, zero included, is never reported as not found,
    and [None] is not the count zero. *)
Theorem extract_not_found (p : Platform) (html_text : text) :
  (~ occurs (pattern_of p) html_text -> extract p html_text = Ok None) /\
  (extract p html_text = Ok None -> ~ occurs (pattern_of p) html_text) /\
  (extract p html_text = Ok (Some 0%Z) -> occurs (pattern_of p) html_text) /\
  (Ok None : result (option Z)) <> Ok (Some 0%Z).
Proof.
  destruct (extract_cases p html_text) as [[Hn He]|[Ho (n & Hn & He)]].
  - repeat split; try done. rewrite He. done.
  - repeat split; try done. rewrite He. done.
Qed.

Lemma extract_not_found_witness :
  extract Douyin (py "<html><div data-e2e='user-info-fans'></div></html>")
  = Ok None /\
  extract Douyin (element Douyin no_attrs 0) = Ok (Some 0%Z).
Proof.
  split.
  - apply (extract_not_found Douyin). apply search_None.
    vm_compute. reflexivity.
  - vm_compute. reflexivity.
Defined.

(** ** Filename Timestamp Parser: results *)

Lemma pad_length (w : nat) (n : Z) : length (pad w n) = w.
Proof.
  revert n. induction w as [|w IH]; intros n; simpl; [done|].
  rewrite length_app, IH. simpl. lia.
Qed.

Lemma numeral_ascii (n : Z) :
  is_ascii_digit (48 + Z.to_N (n mod 10)) = true.
Proof.
  assert (0 <= n mod 10 < 10)%Z by (apply Z.mod_pos_bound; lia).
  generalize dependent (n mod 10)%Z. intros d Hd.
  unfold is_ascii_digit. apply andb_true_iff. split; apply N.leb_le; lia.
Qed.

Lemma pad_ascii (w : nat) (n : Z) : forallb is_ascii_digit (pad w n) = true.
Proof.
  revert n. induction w as [|w IH]; intros n; simpl; [done|].
  rewrite forallb_app, IH. simpl. by rewrite numeral_ascii.
Qed.

Lemma pad_digits (w : nat) (n : Z) : forallb is_digit (pad w n) = true.
Proof. apply (forallb_impl _ _ _ is_digit_ascii), pad_ascii. Qed.

(** A property of the numbers [lo .. lo + n - 1], checked by evaluation. *)
Lemma range_check (P : Z -> bool) (lo : Z) (n : nat) :
  forallb P (map (fun i => (lo + Z.of_nat i)%Z) (seq 0 n)) = true ->
  forall v, (lo <= v < lo + Z.of_nat n)%Z -> P v = true.
Proof.
  intros H v Hv. apply (proj1 (forallb_forall _ _) H).
  apply in_map_iff. exists (Z.to_nat (v - lo)). split; [lia|].
  apply in_seq. lia.
Qed.

Lemma field_reads_spec (ok : N -> N -> bool) (v : Z) :
  field_reads ok v = true ->
  exists c1 c2, pad 2 v = [c1; c2] /\ ok c1 c2 = true /\
                int_acc 0 [c1; c2] = Some v.
Proof.
  unfold field_reads. destruct (pad 2 v) as [|c1 [|c2 [|? ?]]]; try done.
  intros H. apply andb_true_iff in H as [H1 H2].
  destruct (int_acc 0 [c1; c2]) as [z|] eqn:E; [|done].
  apply Z.eqb_eq in H2 as ->. by exists c1, c2.
Qed.

Lemma year_reads_spec (v : Z) :
  year_reads v = true ->
  exists c1 c2 c3 c4, pad 4 v = [c1; c2; c3; c4] /\
    forallb is_digit [c1; c2; c3; c4] = true /\
    int_acc 0 [c1; c2; c3; c4] = Some v.
Proof.
  unfold year_reads.
  destruct (pad 4 v) as [|c1 [|c2 [|c3 [|c4 [|? ?]]]]]; try done.
  intros H. apply andb_true_iff in H as [H1 H2].
  destruct (int_acc 0 [c1; c2; c3; c4]) as [z|] eqn:E; [|done].
  apply Z.eqb_eq in H2 as ->. by exists c1, c2, c3, c4.
Qed.

Lemma month_reads (v : Z) : (1 <= v <= 12)%Z -> field_reads month_field v = true.
Proof.
  intros H. apply (range_check (field_reads month_field) 1 12); [|lia].
  vm_compute. reflexivity.
Qed.

Lemma day_reads (v : Z) : (1 <= v <= 31)%Z -> field_reads day_field v = true.
Proof.
  intros H. apply (range_check (field_reads day_field) 1 31); [|lia].
  vm_compute. reflexivity.
Qed.

Lemma hour_reads (v : Z) : (0 <= v <= 23)%Z -> field_reads hour_field v = true.
Proof.
  intros H. apply (range_check (field_reads hour_field) 0 24); [|lia].
  vm_compute. reflexivity.
Qed.

Lemma minute_reads (v : Z) :
  (0 <= v <= 59)%Z -> field_reads minute_field v = true.
Proof.
  intros H. apply (range_check (field_reads minute_field) 0 60); [|lia].
  vm_compute. reflexivity.
Qed.

Lemma second_reads (v : Z) :
  (0 <= v <= 59)%Z -> field_reads second_field v = true.
Proof.
  intros H. apply (range_check (field_reads second_field) 0 60); [|lia].
  vm_compute. reflexivity.
Qed.

Lemma year_reads_ok (v : Z) : (1 <= v <= 9999)%Z -> year_reads v = true.
Proof.
  intros H. apply (range_check year_reads 1 (Z.to_nat 9999)); [|lia].
  vm_compute. reflexivity.
Qed.

Lemma days_in_month_le (y mo : Z) : (days_in_month y mo <= 31)%Z.
Proof.
  unfold days_in_month.
  repeat match goal with |- context [if ?b then _ else _] => destruct b end;
    lia.
Qed.

Lemma valid_datetime_bounds (dt : datetime) :
  valid_datetime dt = true ->
  (1 <= year dt <= 9999 /\ 1 <= month dt <= 12 /\ 1 <= day dt <= 31 /\
   0 <= hour dt <= 23 /\ 0 <= minute dt <= 59 /\ 0 <= second dt <= 59)%Z.
Proof.
  unfold valid_datetime. intros H.
  repeat (apply andb_true_iff in H as [H ?]).
  pose proof (days_in_month_le (year dt) (month dt)).
  repeat match goal with
         | H : (_ <=? _)%Z = true |- _ => apply Z.leb_le in H
         end.
  lia.
Qed.

(** [strptime] reads the tokens of a valid date and time back. *)
Lemma strptime_tokens (dt : datetime) :
  valid_datetime dt = true -> microsecond dt = 0%Z ->
  strptime (date_token dt ++ py "_" ++ time_token dt) = Ok dt.
Proof.
  intros Hv Hus.
  destruct (valid_datetime_bounds dt Hv) as (HY & HM & HD & Hh & Hmi & Hs).
  destruct (year_reads_spec _ (year_reads_ok _ HY))
    as (y1 & y2 & y3 & y4 & Ey & Hyd & Hyv).
  destruct (field_reads_spec _ _ (month_reads _ HM)) as (m1 & m2 & Em & Hmo & Hmv).
  destruct (field_reads_spec _ _ (day_reads _ HD)) as (d1 & d2 & Ed & Hdo & Hdv).
  destruct (field_reads_spec _ _ (hour_reads _ Hh)) as (h1 & h2 & Eh & Hho & Hhv).
  destruct (field_reads_spec _ _ (minute_reads _ Hmi))
    as (i1 & i2 & Ei & Hio & Hiv).
  destruct (field_reads_spec _ _ (second_reads _ Hs)) as (s1 & s2 & Es & Hso & Hsv).
  unfold date_token, time_token. rewrite Ey, Em, Ed, Eh, Ei, Es.
  change (strptime [y1; y2; y3; y4; m1; m2; d1; d2; ch "_";
                    h1; h2; i1; i2; s1; s2] = Ok dt).
  unfold strptime. rewrite Hyd, Hmo, Hdo, Hho, Hio, Hso, N.eqb_refl.
  rewrite Hyv, Hmv, Hdv, Hhv, Hiv, Hsv. simpl.
  destruct dt as [Y M D h mi s us]. simpl in *. subst us.
  by rewrite Hv.
Qed.

Lemma timestamp_match (d t post : text) :
  length d = 8 -> forallb is_digit d = true ->
  length t = 6 -> forallb is_digit t = true ->
  match_here timestamp_pattern (d ++ py "_" ++ t ++ post) = Some [d; t].
Proof.
  intros Hd1 Hd2 Ht1 Ht2. unfold match_here, timestamp_pattern.
  change (m_rep 8 Digit (d ++ py "_" ++ t ++ post)
            (fun s' =>
               m (Lit (py "_") +> Group (Rep 6 Digit)) s'
                 ([] ++ [take (length (d ++ py "_" ++ t ++ post) - length s')
                           (d ++ py "_" ++ t ++ post)])
                 (fun _ g => Some g)) = Some [d; t]).
  rewrite m_rep_exact by done. rewrite capture_extent, m_lit_app.
  change (m_rep 6 Digit (t ++ post)
            (fun s' =>
               Some (([] ++ [d])
                     ++ [take (length (t ++ post) - length s') (t ++ post)]))
          = Some [d; t]).
  rewrite m_rep_exact by done. by rewrite capture_extent.
Qed.

Lemma split_first_stop (sep : N) (a rest : text) :
  forallb (fun c => negb (c =? sep)%N) a = true ->
  split_first sep (a ++ sep :: rest) = a.
Proof.
  induction a as [|c a IH]; simpl.
  - by rewrite N.eqb_refl.
  - intros H. apply andb_true_iff in H as [H1 H2].
    apply negb_true_iff in H1. rewrite H1. f_equal. by apply IH.
Qed.

(** The date component of an ISO timestamp. *)
Lemma isoformat_date (dt : datetime) :
  split_first (ch "T") (isoformat dt) =
  pad 4 (year dt) ++ py "-" ++ pad 2 (month dt) ++ py "-" ++ pad 2 (day dt).
Proof.
  unfold isoformat.
  set (rest := pad 2 (hour dt) ++ py ":" ++ pad 2 (minute dt) ++ py ":"
               ++ pad 2 (second dt)
               ++ (if (microsecond dt =? 0)%Z then []
                   else py "." ++ pad 6 (microsecond dt))).
  transitivity
    (split_first (ch "T")
       ((pad 4 (year dt) ++ py "-" ++ pad 2 (month dt) ++ py "-"
         ++ pad 2 (day dt)) ++ ch "T" :: rest)).
  { by rewrite <- !app_assoc. }
  apply split_first_stop.
  rewrite !forallb_app.
  assert (Hp : forall w n, forallb (fun c => negb (c =? ch "T")%N) (pad w n)
                           = true).
  { intros w n. apply (forallb_impl is_ascii_digit); [|apply pad_ascii].
    intros c Hc. unfold is_ascii_digit in Hc.
    apply andb_true_iff in Hc as [_ Hc]. apply N.leb_le in Hc.
    apply negb_true_iff, N.eqb_neq. change (ch "T") with 84%N. lia. }
  by rewrite !Hp.
Qed.

Lemma extract_timestamp_found (filename : text) (g : caps) (w : world) :
  search timestamp_pattern filename = Some g ->
  extract_timestamp_from_filename filename w =
  match strptime (group 1 g ++ py "_" ++ group 2 g) with
  | Ok dt => (Ok (isoformat dt), w)
  | Raise e => (Raise e, w)
  end.
Proof.
  intros H. unfold extract_timestamp_from_filename. rewrite H.
  unfold mbind, M_bind, lift. by destruct (strptime _).
Qed.

(** C8, as the code has it: the delimiter is the underscore, [re.search]
    takes the leftmost pair of tokens, and [strptime] accepts a valid
    calendar date and time of day.  For every filename in which the
    leftmost occurrence of eight digits, an underscore and six digits is
    [YYYYMMDD_HHMMSS] for a valid date and time [dt], the parser returns
    the timestamp [YYYY-MM-DDTHH:MM:SS] of [dt], whose date component is
    [YYYY-MM-DD], and touches nothing; in particular
    [platformX_20251112_154753.ext] yields [2025-11-12T15:47:53], with the
    date component [2025-11-12]. *)
Theorem timestamp_of_leftmost_token_pair (pre post : text) (dt : datetime)
    (w : world) :
  valid_datetime dt = true -> microsecond dt = 0%Z ->
  (forall j, j < length pre ->
     ~ occurs_at timestamp_pattern
         (pre ++ date_token dt ++ py "_" ++ time_token dt ++ post) j) ->
  extract_timestamp_from_filename
    (pre ++ date_token dt ++ py "_" ++ time_token dt ++ post) w
  = (Ok (isoformat dt), w) /\
  split_first (ch "T") (isoformat dt)
  = pad 4 (year dt) ++ py "-" ++ pad 2 (month dt) ++ py "-" ++ pad 2 (day dt) /\
  extract_timestamp_from_filename (py "platformX_20251112_154753.ext") w
  = (Ok (py "2025-11-12T15:47:53"), w) /\
  split_first (ch "T") (py "2025-11-12T15:47:53") = py "2025-11-12".
Proof.
  intros Hv Hus Hfirst. split; [|split; [apply isoformat_date|split]].
  - assert (Hm : match_here timestamp_pattern
                   (date_token dt ++ py "_" ++ time_token dt ++ post)
                 = Some [date_token dt; time_token dt]).
    { apply timestamp_match.
      - unfold date_token. by rewrite !length_app, !pad_length.
      - unfold date_token. by rewrite !forallb_app, !pad_digits.
      - unfold time_token. by rewrite !length_app, !pad_length.
      - unfold time_token. by rewrite !forallb_app, !pad_digits. }
    rewrite (extract_timestamp_found _ [date_token dt; time_token dt]).
    + change (group 1 [date_token dt; time_token dt]) with (date_token dt).
      change (group 2 [date_token dt; time_token dt]) with (time_token dt).
      by rewrite strptime_tokens.
    + rewrite (search_skip _ _ _ Hfirst). by apply search_here.
  - rewrite (extract_timestamp_found _ [py "20251112"; py "154753"])
      by (vm_compute; reflexivity).
    vm_compute. reflexivity.
  - vm_compute. reflexivity.
Qed.

Lemma timestamp_of_leftmost_token_pair_witness :
  extract_timestamp_from_filename
    (py "bilibili_" ++ py "20240229" ++ py "_" ++ py "235959" ++ py ".html")
    sample_world
  = (Ok (py "2024-02-29T23:59:59"), sample_world).
Proof.
  refine (proj1 (timestamp_of_leftmost_token_pair (py "bilibili_") (py ".html")
            {| year := 2024; month := 2; day := 29; hour := 23;
               minute := 59; second := 59; microsecond := 0 |}
            sample_world _ _ _)).
  - reflexivity.
  - reflexivity.
  - apply no_occurrence_before. vm_compute. reflexivity.
Defined.

(** C8 as stated fails: with a hyphen, a single character that is no
    digit, between the tokens, the parser does not read the tokens and
    returns the time of the clock. *)
Lemma timestamp_delimiter_counterexample :
  ~ (forall (filename pre d t post : text) (sep : N) (w : world),
       filename = pre ++ d ++ sep :: t ++ post ->
       length d = 8 -> forallb is_digit d = true ->
       is_digit sep = false ->
       length t = 6 -> forallb is_digit t = true ->
       (extract_timestamp_from_filename filename w).1
       = Ok (combine_tokens d t)).
Proof.
  intros H.
  specialize (H (py "platformX_20251112-154753.ext") (py "platformX_")
                (py "20251112") (py "154753") (py ".ext") (ch "-")
                sample_world eq_refl eq_refl eq_refl eq_refl eq_refl eq_refl).
  vm_compute in H. discriminate H.
Qed.

(** C9: there is a filename with eight digits, an underscore and six
    digits, found by the pattern of the parser, on which the parser raises
    [ValueError]: it returns no timestamp and does not read the clock. *)
Theorem invalid_token_pair_raises :
  exists filename : text,
    filename = py "x_99999999_999999.html" /\
    search timestamp_pattern filename = Some [py "99999999"; py "999999"] /\
    forall w : world,
      extract_timestamp_from_filename filename w = (Raise ValueError, w).
Proof.
  exists (py "x_99999999_999999.html"). split; [done|].
  split; [vm_compute; reflexivity|]. intros w.
  rewrite (extract_timestamp_found _ [py "99999999"; py "999999"])
    by (vm_compute; reflexivity).
  vm_compute. reflexivity.
Qed.

(** The leftmost pair of tokens decides: an invalid pair before a valid
    one makes the parser raise. *)
Example timestamp_leftmost_pair (w : world) :
  extract_timestamp_from_filename
    (py "a_99999999_999999_20251112_154753.html") w
  = (Raise ValueError, w).
Proof.
  rewrite (extract_timestamp_found _ [py "99999999"; py "999999"])
    by (vm_compute; reflexivity).
  vm_compute. reflexivity.
Qed.

(** ** History Store: results *)

Lemma emit_nil (w : world) : emit w [] = w.
Proof. destruct w. unfold emit. simpl. by rewrite app_nil_r. Qed.

Lemma emit_emit (w : world) (a b : list line) :
  emit (emit w a) b = emit w (a ++ b).
Proof. unfold emit. simpl. by rewrite app_assoc. Qed.

Lemma print_emit (l : line) (w : world) : print l w = (Ok tt, emit w [l]).
Proof. reflexivity. Qed.

Lemma load_existing_data_run (w : world) :
  load_existing_data w =
  (Ok (loaded w),
   match history_file w with
   | Unreadable e => emit w [ErrorLoading e]
   | _ => w
   end).
Proof.
  unfold load_existing_data, loaded, mbind, M_bind, output_file_exists,
    try_except, read_output_file.
  destruct (history_file w) eqn:E; simpl; rewrite ?E;
    unfold emit, mret, M_ret; rewrite ?E; reflexivity.
Qed.

(** [append_data] saves the merged store and prints the warning, when
    the pair of date and platform is taken, and the confirmation. *)
Lemma append_data_run (new_entry : entry) (w : world) :
  let date := split_first (ch "T") (timestamp new_entry) in
  let h := loaded w in
  append_data new_entry w =
  (Ok tt,
   {| history_file :=
        Stored (merged h date (platform new_entry) (followers new_entry));
      stdout :=
        stdout w
        ++ match history_file w with
           | Unreadable e => [ErrorLoading e]
           | _ => []
           end
        ++ (if decide (is_Some (count_at h date (platform new_entry)))
            then [AlreadyExists (platform new_entry) date] else [])
        ++ [Added (platform new_entry) (followers new_entry) date];
      clock := clock w; ticks := ticks w |}).
Proof.
  intros date h. unfold append_data.
  unfold mbind at 1. unfold M_bind at 1. rewrite load_existing_data_run.
  fold date. fold h.
  set (h1 := match h !! date with
             | Some _ => h
             | None => <[date := ∅]> h
             end).
  assert (Hday : default ∅ (h1 !! date) = default ∅ (h !! date)).
  { unfold h1. destruct (h !! date) eqn:E; [by rewrite E|].
    by rewrite lookup_insert_eq. }
  assert (Hm : <[date := <[platform new_entry := followers new_entry]>
                           (default ∅ (h1 !! date))]> h1
               = merged h date (platform new_entry) (followers new_entry)).
  { rewrite Hday. unfold merged, h1.
    destruct (h !! date); [done|]. by rewrite insert_insert_eq. }
  assert (Hc : count_at h date (platform new_entry)
               = default ∅ (h1 !! date) !! platform new_entry).
  { rewrite Hday. unfold count_at. destruct (h !! date); simpl; [done|].
    by rewrite lookup_empty. }
  rewrite Hm, Hc.
  unfold mbind, M_bind, mret, M_ret, save_data.
  destruct (history_file w) eqn:Ew;
    destruct (decide (is_Some (default ∅ (h1 !! date) !! platform new_entry)));
    simpl; rewrite ?app_nil_r; rewrite <- ?app_assoc; done.
Qed.


Lemma count_at_merged_same (h : history) (date platform : text) (count : Z) :
  count_at (merged h date platform count) date platform = Some count.
Proof.
  unfold count_at, merged. rewrite lookup_insert_eq. simpl.
  by rewrite lookup_insert_eq.
Qed.

Lemma count_at_merged_other (h : history) (date platform : text) (count : Z)
    (date' platform' : text) :
  (date', platform') <> (date, platform) ->
  count_at (merged h date platform count) date' platform'
  = count_at h date' platform'.
Proof.
  intros Hne. unfold count_at, merged.
  destruct (decide (date' = date)) as [->|Hd].
  - rewrite lookup_insert_eq. simpl.
    rewrite lookup_insert_ne by congruence.
    destruct (h !! date); simpl; [done | by rewrite lookup_empty].
  - by rewrite lookup_insert_ne.
Qed.






(** ** Batch Driver: results *)

Section DriverFacts.
Variable lower : text -> text.


Lemma process_files_cons (html_file : snapshot) (rest : list snapshot)
    (processed : nat) (w : world) :
  process_files lower (html_file :: rest) processed w =
  match process_html_file lower html_file
          (emit w [Processing (name html_file)]) with
  | (Ok new_entry, w1) =>
      process_files lower rest (S processed)
        (emit (append_data new_entry w1).2 [Blank])
  | (Raise e, w1) => (Raise e, w1)
  end.
Proof.
  simpl. unfold mbind at 1. unfold M_bind at 1. rewrite print_emit.
  unfold mbind at 1. unfold M_bind at 1.
  destruct (process_html_file lower html_file _) as [[new_entry|e] w1];
    [|done].
  unfold mbind at 1. unfold M_bind at 1. rewrite append_data_run.
  unfold mbind at 1. unfold M_bind at 1. by rewrite print_emit.
Qed.





Lemma process_all_nonempty (html_files : list snapshot) (w : world) :
  html_files <> [] ->
  process_all_html_files lower (Some html_files) w =
  match process_files lower (merge_sort snapshot_le html_files) 0
          (emit w [Rule; ProcessingCount (length html_files); Rule]) with
  | (Ok n, w1) => finish html_files n w1
  | (Raise e, w1) => (Raise e, w1)
  end.
Proof.
  intros Hne. destruct html_files as [|f0 files0]; [done|].
  unfold process_all_html_files.
  unfold mbind at 1. unfold M_bind at 1. rewrite print_emit.
  unfold mbind at 1. unfold M_bind at 1. rewrite print_emit.
  unfold mbind at 1. unfold M_bind at 1. rewrite print_emit.
  rewrite !emit_emit.
  unfold mbind at 1. unfold M_bind at 1. reflexivity.
Qed.

End DriverFacts.


(** ** Printing only adds lines *)


Lemma grows_raise {A : Type} (e : exn) : grows (@raise A e).
Proof. intros w. exists []. simpl. by rewrite app_nil_r. Qed.







Section BatchResult.
Variable lower : text -> text.


End BatchResult.



(** The end-to-end scenario: the two snapshots, processed in the order of
    their names, leave the store
    [{"2025-11-12": {"bilibili": 532}, "2025-11-13": {"douyin": 5439}}]. *)
Example end_to_end :
  history_file
    (process_all_html_files ascii_lower (Some two_files) sample_world).2
  = Stored {[ py "2025-11-12" := {[ py "bilibili" := 532%Z ]};
              py "2025-11-13" := {[ py "douyin" := 5439%Z ]} ]}.
Proof. vm_compute. reflexivity. Qed.

(** ** The order of dates *)

Lemma text_leb_refl (a : text) : text_leb a a = true.
Proof.
  induction a as [|x a IH]; simpl; [done|]. by rewrite N.ltb_irrefl.
Qed.

Lemma text_leb_total (a b : text) : text_leb a b = true \/ text_leb b a = true.
Proof.
  revert b. induction a as [|x a IH]; intros [|y b]; simpl; auto.
  destruct (x <? y)%N eqn:E1; [auto|].
  destruct (y <? x)%N eqn:E2; [auto|]. apply IH.
Qed.

Lemma text_leb_trans (a b c : text) :
  text_leb a b = true -> text_leb b c = true -> text_leb a c = true.
Proof.
  revert b c. induction a as [|x a IH]; intros [|y b] [|z c]; simpl; try done.
  destruct (x <? y)%N eqn:E1.
  - apply N.ltb_lt in E1. intros _.
    destruct (y <? z)%N eqn:E2.
    + apply N.ltb_lt in E2. intros _.
      assert (H : (x <? z)%N = true) by (apply N.ltb_lt; lia). by rewrite H.
    + destruct (z <? y)%N eqn:E3; [done|].
      apply N.ltb_ge in E2, E3. intros _.
      assert (H : (x <? z)%N = true) by (apply N.ltb_lt; lia). by rewrite H.
  - destruct (y <? x)%N eqn:E2; [done|].
    apply N.ltb_ge in E1, E2. assert (x = y) as -> by lia.
    intros Hab. destruct (y <? z)%N; [done|].
    destruct (z <? y)%N; [done|]. by apply IH.
Qed.

#[global] Instance text_le_refl : Reflexive text_le.
Proof. intros a. apply text_leb_refl. Qed.

#[global] Instance text_le_total : Total text_le.
Proof. intros a b. apply text_leb_total. Qed.

#[global] Instance text_le_trans : Transitive text_le.
Proof. intros a b c. apply text_leb_trans. Qed.

Lemma sorted_sorted (keys : list text) : StronglySorted text_le (sorted keys).
Proof. apply StronglySorted_merge_sort; apply _. Qed.

Lemma sorted_elem (keys : list text) (d : text) : d ∈ sorted keys <-> d ∈ keys.
Proof. unfold sorted. by rewrite merge_sort_Permutation. Qed.

(** The head of a sorted list is its least element and its last element
    the greatest. *)
Lemma sorted_hd_least (l : list text) (d : text) :
  StronglySorted text_le l -> d ∈ l -> text_le (hd [] l) d.
Proof.
  intros Hs Hd. destruct Hs as [|a l Hs Hall]; [by apply elem_of_nil in Hd|].
  simpl. apply elem_of_cons in Hd as [->|Hd]; [reflexivity|].
  rewrite List.Forall_forall in Hall. by apply Hall, list_elem_of_In.
Qed.

Lemma last_elem (l : list text) : l <> [] -> List.last l [] ∈ l.
Proof.
  induction l as [|a l IH]; [done|]. intros _.
  destruct l as [|b l]; [simpl; set_solver|].
  change (List.last (a :: b :: l) []) with (List.last (b :: l) []).
  apply elem_of_cons. right. by apply IH.
Qed.

Lemma sorted_last_greatest (l : list text) (d : text) :
  StronglySorted text_le l -> d ∈ l -> text_le d (List.last l []).
Proof.
  induction 1 as [|a l Hs IH Hall]; intros Hd; [by apply elem_of_nil in Hd|].
  destruct l as [|b l].
  - apply list_elem_of_singleton in Hd as ->. simpl. reflexivity.
  - change (List.last (a :: b :: l) []) with (List.last (b :: l) []).
    apply elem_of_cons in Hd as [->|Hd]; [|by apply IH].
    rewrite List.Forall_forall in Hall. apply Hall, list_elem_of_In.
    by apply last_elem.
Qed.

Lemma hd_elem (l : list text) : l <> [] -> hd [] l ∈ l.
Proof. destruct l; [done|]. intros _. simpl. set_solver. Qed.

(** In a list without repetition, the head and the last element differ
    exactly when the list has more than one element. *)
Lemma hd_last_distinct (l : list text) :
  NoDup l -> l <> [] -> (1 < length l <-> hd [] l <> List.last l []).
Proof.
  intros Hnd Hne. destruct l as [|a [|b l]]; [done| |].
  - simpl. split; [lia | done].
  - split; [|simpl; lia]. intros _ Heq.
    apply NoDup_cons in Hnd as [Hnd _]. apply Hnd.
    change (hd [] (a :: b :: l)) with a in Heq. rewrite Heq.
    change (List.last (a :: b :: l) []) with (List.last (b :: l) []).
    by apply last_elem.
Qed.

Lemma dates_elem (h : history) (d : text) :
  d ∈ sorted (map fst (map_to_list h)) <-> is_Some (h !! d).
Proof.
  rewrite sorted_elem. change (map fst (map_to_list h)) with ((map_to_list h).*1).
  rewrite list_elem_of_fmap. split.
  - intros ([d' m] & -> & Hin). apply elem_of_map_to_list in Hin. by eexists.
  - intros [m Hm]. exists (d, m). split; [done|]. by apply elem_of_map_to_list.
Qed.

Lemma dates_nonempty (h : history) :
  h <> ∅ -> sorted (map fst (map_to_list h)) <> [].
Proof.
  intros Hne Hs. apply Hne. apply map_to_list_empty_iff.
  apply (f_equal length) in Hs.
  unfold sorted in Hs.
  rewrite (Permutation_length (merge_sort_Permutation _ _)) in Hs.
  rewrite length_map in Hs. by destruct (map_to_list h).
Qed.

Lemma dates_NoDup (h : history) : NoDup (sorted (map fst (map_to_list h))).
Proof.
  unfold sorted. rewrite merge_sort_Permutation.
  apply NoDup_fst_map_to_list.
Qed.

(** ** Summary and growth report: results *)

Lemma count_at_default (h : history) (d p : text) :
  count_at h d p = default ∅ (h !! d) !! p.
Proof.
  unfold count_at. destruct (h !! d); simpl; [done | by rewrite lookup_empty].
Qed.

Lemma for_each_emit {A : Type} (xs : list A) (body : A -> M unit)
    (f : A -> list line) :
  (forall x w, body x w = (Ok tt, emit w (f x))) ->
  forall w, for_each xs body w = (Ok tt, emit w (concat (map f xs))).
Proof.
  intros Hb. induction xs as [|x xs IH]; intros w; simpl.
  - by rewrite emit_nil.
  - unfold mbind, M_bind. by rewrite Hb, IH, emit_emit.
Qed.

Lemma for_each_rows {A : Type} (xs : list A) (body : A -> M unit)
    (row : A -> option (result line)) :
  (forall x w, body x w =
               match row x with
               | None => (Ok tt, w)
               | Some (Ok l) => (Ok tt, emit w [l])
               | Some (Raise e) => (Raise e, w)
               end) ->
  forall w,
    for_each xs body w =
    (match (collect (map row xs)).2 with None => Ok tt | Some e => Raise e end,
     emit w (collect (map row xs)).1).
Proof.
  intros Hb. induction xs as [|x xs IH]; intros w; simpl.
  - by rewrite emit_nil.
  - unfold mbind, M_bind. rewrite Hb.
    destruct (row x) as [[l|e]|]; simpl.
    + rewrite IH. destruct (collect (map row xs)) as [ls e'].
      simpl. by rewrite emit_emit.
    + by rewrite emit_nil.
    + by rewrite IH.
Qed.

Ltac step_print :=
  unfold mbind at 1; unfold M_bind at 1; rewrite print_emit; cbv beta iota.

Lemma growth_analysis_run (h : history) (sorted_dates : list text) (w : world) :
  growth_analysis h sorted_dates w =
  let c := collect (map (growth_row h (hd [] sorted_dates)
                           (List.last sorted_dates []))
                      tracked_platforms) in
  (match c.2 with None => Ok tt | Some e => Raise e end,
   emit w (GrowthTitle :: c.1)).
Proof.
  unfold growth_analysis. step_print.
  rewrite (for_each_rows _ _ (growth_row h (hd [] sorted_dates)
                                (List.last sorted_dates []))).
  - simpl. by rewrite emit_emit.
  - intros p w0. unfold growth_row. rewrite !count_at_default.
    destruct (default ∅ (h !! hd [] sorted_dates) !! p) as [a|]; [|done].
    destruct (default ∅ (h !! List.last sorted_dates []) !! p) as [b|];
      [|done].
    unfold mbind, M_bind, lift. by destruct (growth_pct_of (b - a) a).
Qed.

Lemma display_summary_run (w : world) :
  display_summary w =
  (match (summary_lines (loaded w)).2 with
   | None => Ok tt
   | Some e => Raise e
   end,
   emit (after_load w) (summary_lines (loaded w)).1).
Proof.
  unfold display_summary. unfold mbind at 1. unfold M_bind at 1.
  rewrite load_existing_data_run. fold (after_load w). cbv beta iota.
  unfold summary_lines. set (h := loaded w).
  destruct (decide (h = ∅)) as [He|He]; [done|].
  set (ds := sorted (map fst (map_to_list h))).
  do 6 step_print.
  unfold mbind at 1. unfold M_bind at 1.
  rewrite (for_each_emit _ _ (date_lines h)).
  - cbv beta iota. rewrite !emit_emit.
    destruct (decide (1 < length ds)) as [Hl|Hl].
    + unfold mbind at 1. unfold M_bind at 1. rewrite growth_analysis_run.
      cbv beta iota zeta.
      destruct (collect _) as [ls [e|]]; simpl.
      * rewrite emit_emit. do 2 f_equal; by rewrite <- ?app_assoc.
      * rewrite print_emit, !emit_emit. do 2 f_equal;
          by rewrite <- ?app_assoc.
    + unfold mbind at 1. unfold M_bind at 1. unfold mret at 1, M_ret at 1.
      rewrite print_emit, emit_emit. do 2 f_equal; by rewrite <- ?app_assoc.
  - intros date w0. step_print.
    rewrite (for_each_emit _ _ (fun item => [PlatformLine item.1 item.2])).
    + rewrite emit_emit. unfold date_lines. do 3 f_equal.
      generalize (sorted_items (map_to_list (default ∅ (h !! date)))).
      intros l. induction l as [|x l IH]; simpl; [done | by rewrite IH].
    + done.
Qed.

Lemma collect_elem (rows : list (option (result line))) (ls : list line) :
  collect rows = (ls, None) -> forall l, l ∈ ls <-> Some (Ok l) ∈ rows.
Proof.
  revert ls. induction rows as [|[[l0|e]|] rows IH]; intros ls; simpl.
  - intros [= <-] l. split; intros H; by apply elem_of_nil in H.
  - destruct (collect rows) as [ls' e'] eqn:E. intros [= <- ->] l.
    rewrite !elem_of_cons, (IH ls' eq_refl l). split.
    + intros [->|H]; [by left | by right].
    + intros [[= ->]|H]; [by left | by right].
  - done.
  - intros H l. rewrite (IH ls H l), elem_of_cons. split; [by right|].
    by intros [[=]|H'].
Qed.

Lemma growth_row_line (h : history) (first_date last_date p p' : text)
    (a b g : Z) (pct : spec_float) :
  growth_row h first_date last_date p = Some (Ok (GrowthLine p' a b g pct)) <->
  p' = p /\ count_at h first_date p = Some a /\
  count_at h last_date p = Some b /\ g = (b - a)%Z /\
  growth_pct_of g a = Ok pct.
Proof.
  unfold growth_row.
  destruct (count_at h first_date p) as [a0|];
    [|split; [done | by intros (_ & [=] & _)]].
  destruct (count_at h last_date p) as [b0|];
    [|split; [done | by intros (_ & _ & [=] & _)]].
  split.
  - destruct (growth_pct_of (b0 - a0) a0) as [x|e] eqn:E; [|done].
    intros [= <- <- <- <- <-]. done.
  - intros (-> & [= ->] & [= ->] & -> & ->). done.
Qed.

Lemma date_lines_no_growth (h : history) (dates : list text) (l : line) :
  l ∈ concat (map (date_lines h) dates) ->
  match l with GrowthLine _ _ _ _ _ => False | _ => True end.
Proof.
  intros H. apply list_elem_of_In, in_concat in H as (ls & Hls & Hl).
  apply in_map_iff in Hls as (d & <- & _). unfold date_lines in Hl.
  destruct Hl as [<-|Hl]; [done|].
  apply in_map_iff in Hl as (item & <- & _). done.
Qed.

(** C6, as the code has it: the growth analysis is printed for a store
    with more than one date and compares, for each tracked platform, the
    counts at the earliest and the latest date of the whole store.  For a
    non-empty store on which [display_summary] completes, the first and
    last of its sorted dates are the least and greatest dates of the store,
    and the report has a growth line for a platform exactly when those two
    dates differ, the platform is tracked and has a count at both; the line
    shows the two counts, their difference and the percentage.  With the
    counts 100 and 150 the line reads [+50, +50.00%], and with a first
    count of 0 the percentage is 0 whatever the last count. *)
Theorem growth_report (w w' : world) :
  let h := loaded w in
  let sorted_dates := sorted (map fst (map_to_list h)) in
  let first_date := hd [] sorted_dates in
  let last_date := List.last sorted_dates [] in
  h <> ∅ ->
  display_summary w = (Ok tt, w') ->
  (is_Some (h !! first_date) /\ is_Some (h !! last_date) /\
   forall d, is_Some (h !! d) -> text_le first_date d /\ text_le d last_date) /\
  (exists ls,
     stdout w' = stdout (after_load w) ++ ls /\
     forall p a b g pct,
       GrowthLine p a b g pct ∈ ls <->
       (first_date <> last_date /\ p ∈ tracked_platforms /\
        count_at h first_date p = Some a /\
        count_at h last_date p = Some b /\
        g = (b - a)%Z /\ growth_pct_of g a = Ok pct)) /\
  (exists pct,
     growth_pct_of (150 - 100) 100 = Ok pct /\
     format_int true (150 - 100) = py "+50" /\
     format_pct pct = py "+50.00" /\
     render_growth (py "bilibili") 100 150 (150 - 100) pct
     = py "  bilibili: 100 " ++ [0x2192%N] ++ py " 150 (+50, +50.00%)") /\
  (forall last_count,
     growth_pct_of (last_count - 0) 0 = Ok (S754_zero false)) /\
  format_pct (S754_zero false) = py "+0.00".
Proof.
  intros h sorted_dates first_date last_date Hne Hrun.
  pose proof (dates_nonempty h Hne) as Hds. fold sorted_dates in Hds.
  pose proof (sorted_sorted (map fst (map_to_list h))) as Hsorted.
  fold sorted_dates in Hsorted.
  split; [|split; [|split; [|split]]].
  - split; [apply dates_elem, hd_elem, Hds|].
    split; [apply dates_elem, last_elem, Hds|].
    intros d Hd. apply dates_elem in Hd. fold sorted_dates in Hd.
    split; [by apply sorted_hd_least | by apply sorted_last_greatest].
  - rewrite display_summary_run in Hrun. fold h in Hrun.
    exists (summary_lines h).1.
    destruct (summary_lines h) as [ls e] eqn:Es. simpl in Hrun.
    destruct e as [e|]; [done|]. injection Hrun as <-. split; [done|].
    simpl. unfold summary_lines in Es.
    destruct (decide (h = ∅)) as [|_]; [done|].
    fold sorted_dates in Es. fold first_date in Es. fold last_date in Es.
    pose proof (hd_last_distinct sorted_dates (dates_NoDup h) Hds) as Hdist.
    fold first_date in Hdist. fold last_date in Hdist.
    set (head := [Rule; SummaryTitle; Rule; TotalDates (length sorted_dates);
                  DateRange first_date last_date; DataByDate]) in Es.
    assert (Hhead : forall p a b g pct,
              GrowthLine p a b g pct
              ∈ head ++ concat (map (date_lines h) sorted_dates) -> False).
    { intros p a b g pct Hin. apply elem_of_app in Hin as [Hin|Hin].
      - unfold head in Hin.
        repeat (apply elem_of_cons in Hin as [Hin|Hin]; [discriminate Hin|]).
        by apply elem_of_nil in Hin.
      - by apply date_lines_no_growth in Hin. }
    intros p a b g pct.
    destruct (decide (1 < length sorted_dates)) as [Hl|Hl].
    + destruct (collect _) as [rows [e|]] eqn:Ec; [done|].
      injection Es as <-. apply Hdist in Hl.
      change (GrowthLine p a b g pct
              ∈ (head ++ concat (map (date_lines h) sorted_dates))
                ++ GrowthTitle :: rows ++ [Rule] <->
              first_date <> last_date /\ p ∈ tracked_platforms /\
              count_at h first_date p = Some a /\
              count_at h last_date p = Some b /\
              g = (b - a)%Z /\ growth_pct_of g a = Ok pct).
      split.
      * intros Hin. apply elem_of_app in Hin as [Hin|Hin];
          [by apply Hhead in Hin|].
        apply elem_of_cons in Hin as [Hin|Hin]; [discriminate Hin|].
        apply elem_of_app in Hin as [Hin|Hin];
          [|by apply list_elem_of_singleton in Hin].
        apply (collect_elem _ _ Ec) in Hin.
        apply list_elem_of_In, in_map_iff in Hin as (q & Hq & Hin).
        apply list_elem_of_In in Hin.
        apply growth_row_line in Hq as (-> & ? & ? & ? & ?). done.
      * intros (_ & Hin & Ha & Hb & Hg & Hpct).
        apply elem_of_app. right. apply elem_of_cons. right.
        apply elem_of_app. left. apply (collect_elem _ _ Ec).
        apply list_elem_of_In, in_map_iff. exists p.
        split; [by apply growth_row_line | by apply list_elem_of_In].
    + injection Es as <-.
      change (GrowthLine p a b g pct
              ∈ (head ++ concat (map (date_lines h) sorted_dates)) ++ [Rule]
              <->
              first_date <> last_date /\ p ∈ tracked_platforms /\
              count_at h first_date p = Some a /\
              count_at h last_date p = Some b /\
              g = (b - a)%Z /\ growth_pct_of g a = Ok pct).
      split.
      * intros Hin. apply elem_of_app in Hin as [Hin|Hin];
          [by apply Hhead in Hin|].
        by apply list_elem_of_singleton in Hin.
      * intros (Hd & _). by apply Hdist in Hd.
  - eexists. split; [vm_compute; reflexivity|].
    split; [vm_compute; reflexivity|].
    split; vm_compute; reflexivity.
  - intros last_count. reflexivity.
  - vm_compute. reflexivity.
Qed.

Lemma growth_report_witness :
  let w := world_with growth_store in
  let first_date := py "2025-11-12" in
  let last_date := py "2025-11-14" in
  exists ls,
    stdout (display_summary w).2 = stdout (after_load w) ++ ls /\
    forall p a b g pct,
      GrowthLine p a b g pct ∈ ls <->
      (first_date <> last_date /\ p ∈ tracked_platforms /\
       count_at growth_store first_date p = Some a /\
       count_at growth_store last_date p = Some b /\
       g = (b - a)%Z /\ growth_pct_of g a = Ok pct).
Proof.
  intros w first_date last_date.
  refine (proj1 (proj2 (growth_report w (display_summary w).2 _ _))).
  - apply insert_non_empty.
  - vm_compute. reflexivity.
Defined.

Lemma staggered_dates (d : text) :
  is_Some (staggered_store !! d) ->
  d = py "2025-11-12" \/ d = py "2025-11-13" \/ d = py "2025-11-14".
Proof.
  unfold staggered_store. intros H.
  destruct (decide (d = py "2025-11-12")) as [|H1]; [by left|].
  destruct (decide (d = py "2025-11-13")) as [|H2]; [by right; left|].
  destruct (decide (d = py "2025-11-14")) as [|H3]; [by right; right|].
  rewrite !lookup_insert_ne, lookup_singleton_ne in H by done. by destruct H.
Qed.

(** C6 as stated fails: in a store where bilibili has counts only on the
    first two of three dates, its earliest and latest counts are 100 and
    150, and the report has no growth line for it; the report compares the
    first and the last date of the whole store, and bilibili has no count
    on the last one. *)
Lemma growth_per_platform_counterexample :
  ~ (forall (w : world) (p earliest latest : text) (a b : Z),
       loaded w <> ∅ -> p ∈ tracked_platforms ->
       count_at (loaded w) earliest p = Some a ->
       (forall d, is_Some (count_at (loaded w) d p) -> text_le earliest d) ->
       count_at (loaded w) latest p = Some b ->
       (forall d, is_Some (count_at (loaded w) d p) -> text_le d latest) ->
       exists pct,
         GrowthLine p a b (b - a) pct ∈ stdout (display_summary w).2).
Proof.
  intros H.
  assert (Hdates : forall d,
            is_Some (count_at staggered_store d (py "bilibili")) ->
            d = py "2025-11-12" \/ d = py "2025-11-13").
  { intros d Hd.
    assert (Hs : is_Some (staggered_store !! d)).
    { unfold count_at in Hd. destruct (staggered_store !! d); [by eexists|].
      by destruct Hd. }
    destruct (staggered_dates d Hs) as [-> | [-> | ->]]; [by left | by right|].
    vm_compute in Hd. by destruct Hd. }
  destruct (H (world_with staggered_store) (py "bilibili")
              (py "2025-11-12") (py "2025-11-13") 100%Z 150%Z)
    as [pct Hin].
  - apply insert_non_empty.
  - unfold tracked_platforms. set_solver.
  - vm_compute. reflexivity.
  - intros d Hd. destruct (Hdates d Hd) as [-> | ->]; vm_compute; reflexivity.
  - vm_compute. reflexivity.
  - intros d Hd. destruct (Hdates d Hd) as [-> | ->]; vm_compute; reflexivity.
  - vm_compute in Hin.
    repeat (apply elem_of_cons in Hin as [Hin|Hin]; [discriminate Hin|]).
    by apply elem_of_nil in Hin.
Qed.

(** A store with a single date gets a summary without growth analysis. *)
Example single_date_no_growth :
  stdout
    (display_summary
       (world_with {[ py "2025-11-12" := {[ py "bilibili" := 100%Z ]} ]})).2
  = [Rule; SummaryTitle; Rule; TotalDates 1;
     DateRange (py "2025-11-12") (py "2025-11-12"); DataByDate;
     DateHeading (py "2025-11-12"); PlatformLine (py "bilibili") 100; Rule].
Proof. vm_compute. reflexivity. Qed.

(** * Further properties of the code *)

(** ** Extractors *)









Lemma contains_app (needle a b : text) : contains needle (a ++ needle ++ b) = true.
Proof.
  induction a as [|x a IH].
  - change (contains needle (needle ++ b) = true).
    destruct (needle ++ b) eqn:E; simpl; rewrite <- ?E; by rewrite strip_app.
  - change (contains needle (x :: a ++ needle ++ b) = true). simpl.
    destruct (strip needle (x :: a ++ needle ++ b)); [done | exact IH].
Qed.

(** Every word of the three patterns holds the label 粉丝. *)
Lemma pattern_has_fans (p : Platform) (w : text) (g : caps) :
  Matches (pattern_of p) w g -> exists u v, w = u ++ fans ++ v.
Proof.
  intros H. destruct p; unfold pattern_of in H;
    unfold bilibili_pattern, douyin_pattern, xiaohongshu_pattern in H;
    inv_word.
  - match goal with
    | |- exists u v, ?l1 ++ ?x1 ++ _ = _ =>
        exists (l1 ++ x1 ++ py "class='nav-statistics__item-text'>")
    end.
    eexists. rewrite <- !app_assoc. reflexivity.
  - match goal with
    | |- exists u v,
           ?l1 ++ ?x1 ++ ?l2 ++ ?x2 ++ ?l3 ++ ?y1 ++ ?l4 ++ ?x3 ++ _ = _ =>
        exists (l1 ++ x1 ++ l2 ++ x2 ++ l3 ++ y1 ++ l4 ++ x3 ++ py ">")
    end.
    eexists. rewrite <- !app_assoc. reflexivity.
  - match goal with
    | |- exists u v, ?l1 ++ ?x1 ++ ?l2 ++ ?d ++ ?l3 ++ ?x2 ++ _ = _ =>
        exists (l1 ++ x1 ++ l2 ++ d ++ l3 ++ x2 ++ py ">")
    end.
    eexists. rewrite <- !app_assoc. reflexivity.
Qed.

(** X4: on a text that does not hold the label 粉丝, every extractor
    returns [None]. *)
Theorem extract_needs_label (p : Platform) (html_text : text) :
  contains fans html_text = false -> extract p html_text = Ok None.
Proof.
  intros Hc. destruct (extract_cases p html_text) as [[_ H]|[Ho _]]; [done|].
  destruct Ho as (i & _ & w & rest & g & Hd & Hm).
  destruct (pattern_has_fans p w g Hm) as (u & v & ->).
  assert (E : html_text = (take i html_text ++ u) ++ fans ++ (v ++ rest)).
  { rewrite <- (take_drop i html_text) at 1. rewrite Hd.
    by rewrite <- !app_assoc. }
  rewrite E, contains_app in Hc. done.
Qed.

Lemma extract_needs_label_witness :
  extract Xiaohongshu (py "<span class='count'>12</span><p>fans</p>")
  = Ok None.
Proof. apply (extract_needs_label Xiaohongshu). reflexivity. Defined.

(** ** Timestamp parser *)

Lemma strptime_valid (s : text) (dt : datetime) :
  strptime s = Ok dt -> valid_datetime dt = true /\ microsecond dt = 0%Z.
Proof.
  unfold strptime.
  do 15 (destruct s as [|? s]; [done|]). destruct s; [|done].
  destruct (_ && _); [|done].
  repeat match goal with
         | |- context [match int_acc 0 ?l with _ => _ end] =>
             destruct (int_acc 0 l); [|done]
         end.
  match goal with
  | |- context [valid_datetime ?d] => destruct (valid_datetime d) eqn:E
  end; [|done].
  intros [= <-]. done.
Qed.

Lemma strptime_raises (s : text) (e : exn) :
  strptime s = Raise e -> e = ValueError.
Proof.
  unfold strptime.
  do 15 (destruct s as [|? s]; [by intros [= <-]|]).
  destruct s; [|by intros [= <-]].
  destruct (_ && _); [|by intros [= <-]].
  repeat match goal with
         | |- context [match int_acc 0 ?l with _ => _ end] =>
             destruct (int_acc 0 l); [|by intros [= <-]]
         end.
  match goal with
  | |- context [valid_datetime ?d] => destruct (valid_datetime d)
  end; [done | by intros [= <-]].
Qed.

Lemma isoformat_length (dt : datetime) :
  microsecond dt = 0%Z -> length (isoformat dt) = 19.
Proof.
  intros H. unfold isoformat. rewrite H. cbn [Z.eqb].
  rewrite !length_app, !pad_length. reflexivity.
Qed.

Lemma search_occurs (r : regex) (s : text) (g : caps) :
  search r s = Some g -> occurs r s.
Proof.
  intros H. destruct (search_Some _ _ _ H) as (i & w & rest & Hi & Hd & Hm).
  exists i. split; [done|]. by exists w, rest, g.
Qed.

(** X5: the parser reads the clock exactly when the filename has no
    eight digits, underscore, six digits in it: then it returns the ISO
    form of that reading of the clock; otherwise it leaves the world as it
    was. *)
Theorem timestamp_fallback (filename : text) (w : world) :
  (~ occurs timestamp_pattern filename ->
   extract_timestamp_from_filename filename w =
   (Ok (isoformat (clock w (ticks w))),
    {| history_file := history_file w; stdout := stdout w;
       clock := clock w; ticks := S (ticks w) |})) /\
  (occurs timestamp_pattern filename ->
   (extract_timestamp_from_filename filename w).2 = w).
Proof.
  split.
  - intros H. apply search_None in H.
    unfold extract_timestamp_from_filename. by rewrite H.
  - intros H. destruct (search timestamp_pattern filename) as [g|] eqn:E.
    + rewrite (extract_timestamp_found _ _ _ E). by destruct (strptime _).
    + by apply search_None in E.
Qed.

Lemma timestamp_fallback_witness :
  extract_timestamp_from_filename (py "bilibili_latest.html") sample_world =
  (Ok (py "2026-01-02T03:04:05.000007"),
   {| history_file := Absent; stdout := []; clock := clock sample_world;
      ticks := 1 |}).
Proof.
  apply (proj1 (timestamp_fallback (py "bilibili_latest.html") sample_world)).
  apply search_None. vm_compute. reflexivity.
Defined.

(** X6: on a filename with a token pair the parser either raises
    [ValueError] or returns the timestamp [YYYY-MM-DDTHH:MM:SS] (19
    characters, the date component 10) of a valid calendar date and time;
    it raises nothing else, and nothing at all on other filenames. *)
Theorem timestamp_outcomes (filename : text) (w : world) :
  (forall ts w',
     occurs timestamp_pattern filename ->
     extract_timestamp_from_filename filename w = (Ok ts, w') ->
     exists dt,
       valid_datetime dt = true /\ microsecond dt = 0%Z /\
       ts = isoformat dt /\ length ts = 19 /\
       length (split_first (ch "T") ts) = 10) /\
  (forall e w',
     extract_timestamp_from_filename filename w = (Raise e, w') ->
     e = ValueError /\ occurs timestamp_pattern filename /\ w' = w).
Proof.
  split.
  - intros ts w' Ho.
    destruct (search timestamp_pattern filename) as [g|] eqn:E;
      [|by apply search_None in E].
    rewrite (extract_timestamp_found _ _ _ E).
    destruct (strptime _) as [dt|e] eqn:Es; [|done].
    intros [= <- <-]. destruct (strptime_valid _ _ Es) as [Hv Hus].
    exists dt. split; [done|]. split; [done|]. split; [done|].
    split; [by apply isoformat_length|].
    rewrite isoformat_date, !length_app, !pad_length. reflexivity.
  - intros e w'.
    destruct (search timestamp_pattern filename) as [g|] eqn:E.
    + rewrite (extract_timestamp_found _ _ _ E).
      destruct (strptime _) as [dt|e'] eqn:Es; [done|].
      intros [= <- <-]. split; [|split; [by apply search_occurs in E | done]].
      by apply strptime_raises in Es.
    + unfold extract_timestamp_from_filename. rewrite E. done.
Qed.

Lemma timestamp_outcomes_witness :
  exists dt,
    valid_datetime dt = true /\ microsecond dt = 0%Z /\
    py "2025-11-12T15:47:53" = isoformat dt /\
    length (py "2025-11-12T15:47:53") = 19 /\
    length (split_first (ch "T") (py "2025-11-12T15:47:53")) = 10.
Proof.
  apply (proj1 (timestamp_outcomes (py "bilibili_20251112_154753.html")
                  sample_world)
           (py "2025-11-12T15:47:53") sample_world).
  - apply (search_occurs _ _ [py "20251112"; py "154753"]).
    vm_compute. reflexivity.
  - vm_compute. reflexivity.
Defined.

(** ** History store *)



Lemma loaded_append_data (e : entry) (w : world) :
  loaded (append_data e w).2
  = merged (loaded w) (date_of e) (platform e) (followers e).
Proof. by rewrite append_data_run. Qed.




(** ** Batch driver *)

Section DriverMore.
Variable lower : text -> text.

Lemma extract_timestamp_keeps (filename : text) (w : world) :
  history_file (extract_timestamp_from_filename filename w).2 = history_file w /\
  stdout (extract_timestamp_from_filename filename w).2 = stdout w.
Proof.
  unfold extract_timestamp_from_filename.
  destruct (search timestamp_pattern filename) as [g|]; [|done].
  unfold mbind, M_bind, lift. by destruct (strptime _).
Qed.

(** [process_html_file] by the platform of the filename and the result
    of its extractor. *)
Lemma process_html_file_run (html_file : snapshot) (w : world) :
  process_html_file lower html_file w =
  match platform_of (lower (name html_file)) with
  | Some p =>
      match extract p (content html_file) with
      | Ok (Some n) =>
          match extract_timestamp_from_filename (lower (name html_file)) w with
          | (Ok ts, w') =>
              (Ok {| platform := platform_name p; followers := n;
                     timestamp := ts; source_file := name html_file |}, w')
          | (Raise e, w') => (Raise e, w')
          end
      | Ok None =>
          (Raise (could_not_extract html_file),
           emit w [CouldNotExtract (name html_file)])
      | Raise e => (Raise e, w)
      end
  | None =>
      (Raise (could_not_extract html_file),
       emit w [CouldNotExtract (name html_file)])
  end.
Proof.
  unfold platform_of, process_html_file.
  destruct (contains (py "bilibili") (lower (name html_file))).
  { unfold mbind, M_bind, lift.
    change (extract_bilibili_followers (content html_file))
      with (extract Bilibili (content html_file)).
    destruct (extract Bilibili _) as [[n|]|e]; [|done..].
    unfold mret, M_ret. cbv beta iota.
    by destruct (extract_timestamp_from_filename _ _) as [[ts|e] w']. }
  destruct (contains (py "douyin") (lower (name html_file))).
  { unfold mbind, M_bind, lift.
    change (extract_douyin_followers (content html_file))
      with (extract Douyin (content html_file)).
    destruct (extract Douyin _) as [[n|]|e]; [|done..].
    unfold mret, M_ret. cbv beta iota.
    by destruct (extract_timestamp_from_filename _ _) as [[ts|e] w']. }
  destruct (contains (py "xiaohongshu") (lower (name html_file))).
  { unfold mbind, M_bind, lift.
    change (extract_xiaohongshu_followers (content html_file))
      with (extract Xiaohongshu (content html_file)).
    destruct (extract Xiaohongshu _) as [[n|]|e]; [|done..].
    unfold mret, M_ret. cbv beta iota.
    by destruct (extract_timestamp_from_filename _ _) as [[ts|e] w']. }
  done.
Qed.


(** X9: an entry [process_html_file] returns names the first of
    bilibili, douyin, xiaohongshu that the lowercase filename contains,
    carries the count the extractor of that platform finds in the content
    (never negative), the timestamp of the lowercase filename and the
    filename as it was; the call has printed nothing and has left the
    history file alone. *)
Theorem process_html_file_entry (html_file : snapshot) (w w' : world)
    (e : entry) :
  process_html_file lower html_file w = (Ok e, w') ->
  exists p,
    platform_of (lower (name html_file)) = Some p /\
    platform e = platform_name p /\
    platform e ∈ tracked_platforms /\
    extract p (content html_file) = Ok (Some (followers e)) /\
    (0 <= followers e)%Z /\
    extract_timestamp_from_filename (lower (name html_file)) w
    = (Ok (timestamp e), w') /\
    source_file e = name html_file /\
    history_file w' = history_file w /\
    stdout w' = stdout w.
Proof.
  rewrite process_html_file_run.
  destruct (platform_of _) as [p|]; [|done].
  destruct (extract p _) as [[n|]|x] eqn:En; [|done..].
  pose proof (extract_timestamp_keeps (lower (name html_file)) w) as [Hh Hs].
  destruct (extract_timestamp_from_filename _ _) as [[ts|x] w1]; [|done].
  intros [= <- <-]. exists p. simpl in *.
  split; [done|]. split; [done|].
  split. { unfold tracked_platforms. destruct p; set_solver. }
  split; [done|].
  split; [|done].
  destruct (extract_cases p (content html_file)) as [[_ H]|[_ (m & Hm & H)]];
    congruence.
Qed.


Lemma loaded_history (w w' : world) :
  history_file w' = history_file w -> loaded w' = loaded w.
Proof. unfold loaded. by intros ->. Qed.


Lemma display_summary_history (w : world) :
  history_file (display_summary w).2 = history_file w.
Proof.
  rewrite display_summary_run. simpl. unfold after_load.
  by destruct (history_file w) eqn:E.
Qed.

Lemma finish_history (html_files : list snapshot) (processed : nat)
    (w : world) :
  history_file (finish html_files processed w).2 = history_file w.
Proof.
  unfold finish.
  do 4 (unfold mbind at 1; unfold M_bind at 1; rewrite print_emit).
  unfold mbind at 1. unfold M_bind at 1.
  pose proof (display_summary_history
                (emit (emit (emit (emit w [Rule])
                   [Processed processed (length html_files)]) [SavedTo])
                   [Rule])) as H.
  by destruct (display_summary _) as [[[]|e] w1].
Qed.


End DriverMore.



(** ** Summary *)

Lemma headings_no_data (ls : list line) :
  Forall (fun l => is_data l = false) ls -> headings ls = [].
Proof.
  induction 1 as [|l ls Hl _ IH]; [done|].
  unfold headings in *. destruct l; try done; apply IH.
Qed.

Lemma headings_date_lines (h : history) (dates : list text) :
  headings (concat (map (date_lines h) dates)) = dates.
Proof.
  induction dates as [|d dates IH]; [done|].
  simpl. unfold headings in *. rewrite omap_app, IH. simpl. f_equal.
  generalize (sorted_items (map_to_list (default ∅ (h !! d)))).
  intros items. by induction items.
Qed.

Lemma platform_in_date_lines (h : history) (dates : list text) (p : text)
    (c : Z) :
  PlatformLine p c ∈ concat (map (date_lines h) dates) <->
  exists d, d ∈ dates /\ count_at h d p = Some c.
Proof.
  induction dates as [|d dates IH].
  - simpl. split; [by intros ?%elem_of_nil|].
    by intros (d & ?%elem_of_nil & _).
  - change (concat (map (date_lines h) (d :: dates)))
      with (date_lines h d ++ concat (map (date_lines h) dates)).
    rewrite elem_of_app, IH. clear IH.
    assert (Hd : PlatformLine p c ∈ date_lines h d <-> count_at h d p = Some c).
    { unfold date_lines. rewrite elem_of_cons, count_at_default.
      unfold sorted_items.
      change (map ?f ?l) with (f <$> l). rewrite list_elem_of_fmap.
      split.
      - intros [?|([q k] & [= -> ->] & Hin)]; [done|].
        rewrite merge_sort_Permutation in Hin.
        by apply elem_of_map_to_list in Hin.
      - intros H. right. exists (p, c). split; [done|].
        rewrite merge_sort_Permutation. by apply elem_of_map_to_list. }
    rewrite Hd. split.
    + intros [H|(d' & Hin & H)].
      * exists d. split; [left|done].
      * exists d'. split; [by right|done].
    + intros (d' & [->|Hin]%elem_of_cons & H); [by left|].
      right. by exists d'.
Qed.

Lemma collect_no_data (h : history) (first_date last_date : text)
    (platforms : list text) :
  Forall (fun l => is_data l = false)
    (collect (map (growth_row h first_date last_date) platforms)).1.
Proof.
  induction platforms as [|p platforms IH]; [by constructor|].
  simpl. destruct (growth_row h first_date last_date p) as [[l|e]|] eqn:E.
  - destruct (collect _) as [ls e']. simpl in *. constructor; [|done].
    unfold growth_row in E.
    destruct (count_at h first_date p); [|done].
    destruct (count_at h last_date p); [|done].
    destruct (growth_pct_of _ _); [|done].
    by injection E as <-.
  - by constructor.
  - done.
Qed.

(** The lines of the summary of a store that is not empty: six lines of
    heading, the data by date, and lines of the growth analysis. *)
Lemma summary_lines_shape (h : history) :
  h <> ∅ ->
  let sorted_dates := sorted (map fst (map_to_list h)) in
  exists tail,
    (summary_lines h).1 =
    [Rule; SummaryTitle; Rule; TotalDates (length sorted_dates);
     DateRange (hd [] sorted_dates) (List.last sorted_dates []); DataByDate]
    ++ concat (map (date_lines h) sorted_dates) ++ tail /\
    Forall (fun l => is_data l = false) tail.
Proof.
  intros Hne sorted_dates. unfold summary_lines.
  destruct (decide (h = ∅)) as [|_]; [done|]. fold sorted_dates.
  destruct (decide (1 < length sorted_dates)) as [Hlen|Hlen].
  - pose proof (collect_no_data h (hd [] sorted_dates)
                  (List.last sorted_dates []) tracked_platforms) as Hc.
    destruct (collect _) as [ls [e|]]; simpl in Hc |- *.
    + exists (GrowthTitle :: ls). split; [done|by constructor].
    + exists (GrowthTitle :: ls ++ [Rule]). split; [done|].
      constructor; [done|]. apply Forall_app. split; [done|].
      by repeat constructor.
  - exists [Rule]. split; [done|by repeat constructor].
Qed.

Lemma no_data_not_platform (ls : list line) (p : text) (c : Z) :
  Forall (fun l => is_data l = false) ls -> PlatformLine p c ∉ ls.
Proof.
  intros H Hin. rewrite Forall_forall in H. by apply H in Hin.
Qed.

Lemma summary_headings_eq (h : history) :
  headings (summary_lines h).1 = sorted (map fst (map_to_list h)).
Proof.
  destruct (decide (h = ∅)) as [->|Hne].
  - by rewrite map_to_list_empty.
  - destruct (summary_lines_shape h Hne) as (tail & -> & Ht).
    unfold headings. rewrite !omap_app. fold (headings tail).
    rewrite (headings_no_data tail Ht).
    fold (headings (concat (map (date_lines h)
                              (sorted (map fst (map_to_list h)))))).
    rewrite headings_date_lines. simpl. by rewrite app_nil_r.
Qed.

Lemma display_summary_stdout (w : world) :
  stdout (display_summary w).2
  = stdout (after_load w) ++ (summary_lines (loaded w)).1.
Proof. by rewrite display_summary_run. Qed.

(** X12: the date headings [display_summary] prints are the dates of the
    store, each once, in ascending order, whether or not the growth
    analysis then raises. *)
Theorem summary_headings (w : world) :
  exists ls,
    stdout (display_summary w).2 = stdout (after_load w) ++ ls /\
    StronglySorted text_le (headings ls) /\
    NoDup (headings ls) /\
    forall d, d ∈ headings ls <-> is_Some (loaded w !! d).
Proof.
  exists (summary_lines (loaded w)).1.
  split; [apply display_summary_stdout|].
  rewrite summary_headings_eq.
  split; [apply sorted_sorted|]. split; [apply dates_NoDup|].
  apply dates_elem.
Qed.

(** X13: the summary shows the count of a platform exactly when the store
    holds that count for the platform at some date. *)
Theorem summary_counts (w : world) :
  exists ls,
    stdout (display_summary w).2 = stdout (after_load w) ++ ls /\
    forall p c,
      PlatformLine p c ∈ ls <-> exists d, count_at (loaded w) d p = Some c.
Proof.
  exists (summary_lines (loaded w)).1.
  split; [apply display_summary_stdout|]. intros p c.
  destruct (decide (loaded w = ∅)) as [He|Hne].
  - rewrite He. unfold summary_lines.
    destruct (decide (∅ = ∅)) as [_|]; [|done]. simpl. split.
    + by intros [?|?%elem_of_nil]%elem_of_cons.
    + intros (d & H). unfold count_at in H. by rewrite lookup_empty in H.
  - destruct (summary_lines_shape _ Hne) as (tail & -> & Ht).
    rewrite !elem_of_app, platform_in_date_lines. split.
    + intros [H|[(d & _ & H)|H]].
      * repeat (apply elem_of_cons in H as [H|H]; [done|]).
        by apply elem_of_nil in H.
      * by exists d.
      * by apply no_data_not_platform in H.
    + intros (d & H). right. left. exists d. split; [|done].
      apply dates_elem. unfold count_at in H.
      destruct (loaded w !! d); [by eexists | done].
Qed.

(** X14: [display_summary] only reads and prints: it leaves the history
    file as it is and does not read the clock, also when it ends with an
    exception. *)
Theorem display_summary_reads_only (w : world) :
  let w' := (display_summary w).2 in
  history_file w' = history_file w /\ clock w' = clock w /\
  ticks w' = ticks w /\ exists ls, stdout w' = stdout w ++ ls.
Proof.
  intros w'. unfold w'. rewrite display_summary_run. simpl.
  unfold after_load. destruct (history_file w) as [|e|h] eqn:E; simpl;
    rewrite ?E; (split; [done|]); (split; [done|]); (split; [done|]);
    eexists; rewrite <- ?app_assoc; reflexivity.
Qed.

(** X15: when the history file is missing, unreadable or holds an empty
    mapping, [display_summary] prints that there is no data (after the
    message of the load error, if any) and returns. *)
Theorem display_summary_no_data (w : world) :
  loaded w = ∅ ->
  display_summary w = (Ok tt, emit (after_load w) [NoData]).
Proof.
  intros H. rewrite display_summary_run, H. unfold summary_lines.
  by destruct (decide (∅ = ∅)).
Qed.

Lemma display_summary_no_data_witness :
  display_summary sample_world = (Ok tt, emit sample_world [NoData]).
Proof.
  apply (display_summary_no_data sample_world). reflexivity.
Defined.

(** X16: for a store that is not empty, the number of dates the summary
    reports is the number of dates of the store and the number of date
    headings it prints. *)
Theorem summary_total_dates (w : world) :
  loaded w <> ∅ ->
  exists ls,
    stdout (display_summary w).2 = stdout (after_load w) ++ ls /\
    TotalDates (size (loaded w)) ∈ ls /\
    length (headings ls) = size (loaded w).
Proof.
  intros Hne. exists (summary_lines (loaded w)).1.
  split; [apply display_summary_stdout|].
  assert (Hlen : length (sorted (map fst (map_to_list (loaded w))))
                 = size (loaded w)).
  { unfold sorted. rewrite merge_sort_Permutation.
    by rewrite length_map, length_map_to_list. }
  split.
  - destruct (summary_lines_shape _ Hne) as (tail & -> & _).
    rewrite Hlen. set_solver.
  - by rewrite summary_headings_eq.
Qed.

Lemma summary_total_dates_witness :
  exists ls,
    stdout (display_summary (world_with growth_store)).2
    = stdout (after_load (world_with growth_store)) ++ ls /\
    TotalDates (size (loaded (world_with growth_store))) ∈ ls /\
    length (headings ls) = size (loaded (world_with growth_store)).
Proof.
  apply (summary_total_dates (world_with growth_store)).
  intros H. apply (f_equal (fun m => m !! py "2025-11-12")) in H.
  vm_compute in H. discriminate.
Defined.

(** ** Snapshot files of the monitor *)

Lemma contains_true (needle haystack : text) :
  contains needle haystack = true ->
  exists a b, haystack = a ++ needle ++ b.
Proof.
  induction haystack as [|x haystack IH]; simpl.
  - destruct (strip needle []) as [s|] eqn:E; [|done].
    intros _. exists [], s. by apply strip_Some in E.
  - destruct (strip needle (x :: haystack)) as [s|] eqn:E.
    + intros _. exists [], s. by apply strip_Some in E.
    + intros H. destruct (IH H) as (a & b & ->). by exists (x :: a), b.
Qed.

(** A text that lacks a character of the needle does not contain it. *)
Lemma contains_lacks (needle haystack : text) (c : N) :
  c ∈ needle ->
  forallb (fun x => negb (x =? c)%N) haystack = true ->
  contains needle haystack = false.
Proof.
  intros Hc Hh. destruct (contains needle haystack) eqn:E; [|done].
  apply contains_true in E as (a & b & ->).
  rewrite !forallb_app in Hh.
  apply andb_true_iff in Hh as [_ Hh]. apply andb_true_iff in Hh as [Hh _].
  rewrite forallb_forall in Hh. apply list_elem_of_In, Hh in Hc.
  by rewrite N.eqb_refl in Hc.
Qed.

Lemma pad_lacks (c : N) (w : nat) (n : Z) :
  is_ascii_digit c = false ->
  forallb (fun x => negb (x =? c)%N) (pad w n) = true.
Proof.
  intros Hc. apply (forallb_impl is_ascii_digit); [|apply pad_ascii].
  intros x Hx. apply negb_true_iff, N.eqb_neq. intros ->. congruence.
Qed.

Lemma strftime_lacks (c : N) (dt : datetime) :
  is_ascii_digit c = false -> c <> ch "_" ->
  forallb (fun x => negb (x =? c)%N) (strftime dt) = true.
Proof.
  intros Hc Hu. unfold strftime, date_token, time_token.
  rewrite !forallb_app, !pad_lacks by done.
  assert (H : (ch "_" =? c)%N = false) by by apply N.eqb_neq.
  change (py "_") with [ch "_"]. cbn [forallb]. by rewrite H.
Qed.

Lemma name_lacks (c : N) (platform : text) (dt : datetime) :
  forallb (fun x => negb (x =? c)%N) (platform ++ py "_.html") = true ->
  is_ascii_digit c = false ->
  forallb (fun x => negb (x =? c)%N)
    (html_file_name platform (strftime dt)) = true.
Proof.
  intros Hp Hc. unfold html_file_name.
  change (py "_.html") with (py "_" ++ py ".html") in Hp.
  rewrite !forallb_app in Hp. apply andb_true_iff in Hp as [Hp Hl].
  apply andb_true_iff in Hl as [Hu Hl].
  assert (Hne : c <> ch "_").
  { intros ->. discriminate. }
  by rewrite !forallb_app, Hp, Hu, Hl, strftime_lacks.
Qed.

(** The extractor takes a file of the monitor for the platform the
    monitor saved it for. *)
Lemma platform_of_name (p : Platform) (dt : datetime) :
  platform_of (html_file_name (platform_name p) (strftime dt)) = Some p.
Proof.
  unfold platform_of. destruct p.
  - change (html_file_name (platform_name Bilibili) (strftime dt))
      with ([] ++ py "bilibili" ++ py "_" ++ strftime dt ++ py ".html").
    by rewrite contains_app.
  - rewrite (contains_lacks (py "bilibili") _ (ch "b"));
      [|by apply (list_elem_of_lookup_2 _ 0) | by apply name_lacks].
    change (html_file_name (platform_name Douyin) (strftime dt))
      with ([] ++ py "douyin" ++ py "_" ++ strftime dt ++ py ".html").
    by rewrite contains_app.
  - rewrite (contains_lacks (py "bilibili") _ (ch "b"));
      [|by apply (list_elem_of_lookup_2 _ 0) | by apply name_lacks].
    rewrite (contains_lacks (py "douyin") _ (ch "d"));
      [|by apply (list_elem_of_lookup_2 _ 0) | by apply name_lacks].
    change (html_file_name (platform_name Xiaohongshu) (strftime dt))
      with ([] ++ py "xiaohongshu" ++ py "_" ++ strftime dt ++ py ".html").
    by rewrite contains_app.
Qed.

(** An occurrence of the timestamp pattern begins with a digit. *)
Lemma no_stamp_before (pre t : text) :
  forallb (fun c => negb (is_digit c)) pre = true ->
  forall j, j < length pre -> ~ occurs_at timestamp_pattern (pre ++ t) j.
Proof.
  intros Hpre j Hj [_ (w & rest & g & Hd & Hm)].
  unfold timestamp_pattern in Hm.
  inversion Hm as [| | | | | |r1 r2 w1 w2 g1 g2 Hm1 Hm2]; subst.
  inversion Hm1 as [| | | | |r w' g' Hr|]; subst.
  inversion Hr as [| | | |n c w' Hl Hw| |]; subst.
  destruct w1 as [|c w1]; [done|].
  simpl in Hw. apply andb_true_iff in Hw as [Hc _].
  assert (Hlook : (pre ++ t) !! j = Some c).
  { rewrite <- (Nat.add_0_r j), <- lookup_drop, Hd. done. }
  rewrite lookup_app_l in Hlook by done.
  apply list_elem_of_lookup_2, list_elem_of_In in Hlook.
  rewrite forallb_forall in Hpre. apply Hpre in Hlook.
  by rewrite Hc in Hlook.
Qed.

Lemma valid_to_second (dt : datetime) :
  valid_datetime dt = true -> valid_datetime (to_second dt) = true.
Proof.
  unfold valid_datetime, to_second.
  cbn [year month day hour minute second microsecond].
  intros H. apply andb_true_iff in H as [H _].
  apply andb_true_iff in H as [H _]. by rewrite H.
Qed.

(** The extractor reads the time of capture, to the second, from the
    name of a file of the monitor. *)
Lemma timestamp_of_name (p : Platform) (dt : datetime) (w : world) :
  valid_datetime dt = true ->
  extract_timestamp_from_filename
    (html_file_name (platform_name p) (strftime dt)) w
  = (Ok (isoformat (to_second dt)), w).
Proof.
  intros Hv.
  assert (Hs : search timestamp_pattern
                 (html_file_name (platform_name p) (strftime dt))
               = Some [date_token dt; time_token dt]).
  { unfold html_file_name, strftime.
    replace (platform_name p ++ py "_"
             ++ (date_token dt ++ py "_" ++ time_token dt) ++ py ".html")
      with ((platform_name p ++ py "_")
            ++ date_token dt ++ py "_" ++ time_token dt ++ py ".html")
      by by rewrite <- !app_assoc.
    rewrite search_skip.
    - apply search_here, timestamp_match.
      + unfold date_token. by rewrite !length_app, !pad_length.
      + unfold date_token. by rewrite !forallb_app, !pad_digits.
      + unfold time_token. by rewrite !length_app, !pad_length.
      + unfold time_token. by rewrite !forallb_app, !pad_digits.
    - apply no_stamp_before. destruct p; vm_compute; reflexivity. }
  rewrite (extract_timestamp_found _ _ _ Hs).
  change (group 1 [date_token dt; time_token dt])
    with (date_token (to_second dt)).
  change (group 2 [date_token dt; time_token dt])
    with (time_token (to_second dt)).
  by rewrite strptime_tokens by (by apply valid_to_second || done).
Qed.

Section Captured.
Variable lower : text -> text.

Lemma process_captured (p : Platform) (dt : datetime) (html_content : text)
    (n : Z) (w : world) :
  let html_file := html_file_name (platform_name p) (strftime dt) in
  valid_datetime dt = true ->
  extract p html_content = Ok (Some n) ->
  lower html_file = html_file ->
  process_html_file lower {| name := html_file; content := html_content |} w
  = (Ok {| platform := platform_name p; followers := n;
           timestamp := isoformat (to_second dt);
           source_file := html_file |}, w).
Proof.
  intros html_file Hv He Hl. rewrite process_html_file_run.
  cbn [name content]. rewrite Hl. unfold html_file.
  by rewrite platform_of_name, He, timestamp_of_name.
Qed.

(** X17: a page the monitor captures for a platform comes back from the
    extractor as the monitor took it: the file is in the cache directory
    under the name the monitor built, and [process_html_file] on that file
    returns the platform, the count its extractor finds in the page and
    the time of capture to the second, so that the count is filed under
    the date of capture. *)
Theorem captured_snapshot_processed (p : Platform) (html_content : text)
    (n : Z) (m : monitor) (w : world) :
  let dt := wall_clock m (clock_reads m) in
  let html_file := (capture (platform_name p) html_content m).1 in
  let e := {| platform := platform_name p; followers := n;
              timestamp := isoformat (to_second dt);
              source_file := html_file |} in
  valid_datetime dt = true -> (1000 <= year dt)%Z ->
  extract p html_content = Ok (Some n) ->
  lower html_file = html_file ->
  html_dir (capture (platform_name p) html_content m).2 !! html_file
  = Some html_content /\
  process_html_file lower {| name := html_file; content := html_content |} w
  = (Ok e, w) /\
  date_of e
  = pad 4 (year dt) ++ py "-" ++ pad 2 (month dt) ++ py "-" ++ pad 2 (day dt).
Proof.
  intros dt html_file e Hv _ He Hl.
  split; [apply lookup_insert_eq|].
  split; [by apply process_captured|].
  exact (isoformat_date (to_second dt)).
Qed.
End Captured.

Lemma captured_snapshot_processed_witness :
  let html_content :=
    py "<html>" ++ element Bilibili (doc_attrs Bilibili) 532 ++ py "</html>" in
  let html_file := py "bilibili_20251112_154753.html" in
  html_dir (capture (py "bilibili") html_content sample_monitor).2 !! html_file
  = Some html_content /\
  process_html_file ascii_lower
    {| name := html_file; content := html_content |} sample_world
  = (Ok bilibili_532, sample_world) /\
  date_of bilibili_532 = py "2025-11-12".
Proof.
  apply (captured_snapshot_processed ascii_lower Bilibili
           (py "<html>" ++ element Bilibili (doc_attrs Bilibili) 532
            ++ py "</html>")
           532 sample_monitor sample_world).
  - reflexivity.
  - simpl. lia.
  - vm_compute. reflexivity.
  - vm_compute. reflexivity.
Defined.

Lemma text_leb_app_same (pre a b : text) :
  text_leb (pre ++ a) (pre ++ b) = text_leb a b.
Proof.
  induction pre as [|x pre IH]; simpl; [done|]. by rewrite N.ltb_irrefl.
Qed.

(** Numerals of one width compare as their numbers do. *)
Lemma text_leb_pad (w : nat) (a b : Z) (ta tb : text) :
  (0 <= a < 10 ^ Z.of_nat w)%Z -> (0 <= b < 10 ^ Z.of_nat w)%Z ->
  text_leb (pad w a ++ ta) (pad w b ++ tb) =
  if (a <? b)%Z then true else if (b <? a)%Z then false else text_leb ta tb.
Proof.
  revert a b ta tb. induction w as [|w IH]; intros a b ta tb Ha Hb.
  - change (10 ^ Z.of_nat 0)%Z with 1%Z in *.
    assert (a = 0%Z) as -> by lia. assert (b = 0%Z) as -> by lia. done.
  - rewrite Nat2Z.inj_succ, Z.pow_succ_r in Ha, Hb by lia.
    change (pad (S w) a) with (pad w (a / 10) ++ [(48 + Z.to_N (a mod 10))%N]).
    change (pad (S w) b) with (pad w (b / 10) ++ [(48 + Z.to_N (b mod 10))%N]).
    rewrite <- !app_assoc.
    pose proof (Z.div_mod a 10 ltac:(lia)) as Ea.
    pose proof (Z.div_mod b 10 ltac:(lia)) as Eb.
    pose proof (Z.mod_pos_bound a 10 ltac:(lia)) as Ra.
    pose proof (Z.mod_pos_bound b 10 ltac:(lia)) as Rb.
    revert Ea Eb Ra Rb.
    generalize (a / 10)%Z (a mod 10)%Z (b / 10)%Z (b mod 10)%Z.
    intros qa ra qb rb Ea Eb Ra Rb.
    rewrite IH by lia.
    change ([(48 + Z.to_N ra)%N] ++ ta) with ((48 + Z.to_N ra)%N :: ta).
    change ([(48 + Z.to_N rb)%N] ++ tb) with ((48 + Z.to_N rb)%N :: tb).
    cbn [text_leb].
    destruct (Z.ltb_spec qa qb), (Z.ltb_spec qb qa), (Z.ltb_spec a b),
      (Z.ltb_spec b a),
      (N.ltb_spec (48 + Z.to_N ra) (48 + Z.to_N rb)),
      (N.ltb_spec (48 + Z.to_N rb) (48 + Z.to_N ra)); try done; lia.
Qed.

(** The names the monitor gives, after a common beginning, compare as the
    times of capture do. *)
Lemma text_leb_strftime (dt1 dt2 : datetime) (post : text) :
  valid_datetime dt1 = true -> valid_datetime dt2 = true ->
  text_leb (strftime dt1 ++ post) (strftime dt2 ++ post)
  = (stamp dt1 <=? stamp dt2)%Z.
Proof.
  intros H1 H2.
  apply valid_datetime_bounds in H1 as (Y1 & M1 & D1 & h1 & m1 & s1).
  apply valid_datetime_bounds in H2 as (Y2 & M2 & D2 & h2 & m2 & s2).
  unfold strftime, date_token, time_token. rewrite <- !app_assoc.
  rewrite (text_leb_pad 4)
    by (change (10 ^ Z.of_nat 4)%Z with 10000%Z; lia).
  do 2 rewrite (text_leb_pad 2)
    by (change (10 ^ Z.of_nat 2)%Z with 100%Z; lia).
  rewrite (text_leb_app_same (py "_")).
  do 3 rewrite (text_leb_pad 2)
    by (change (10 ^ Z.of_nat 2)%Z with 100%Z; lia).
  rewrite text_leb_refl. unfold stamp.
  repeat match goal with
         | |- context [(?a <? ?b)%Z] =>
             destruct (Z.ltb_spec a b);
             [symmetry; (apply Z.leb_le || apply Z.leb_gt); lia|]
         end.
  symmetry. apply Z.leb_le. lia.
Qed.

Lemma name_order (platform : text) (dt1 dt2 : datetime) :
  valid_datetime dt1 = true -> valid_datetime dt2 = true ->
  text_leb (html_file_name platform (strftime dt1))
    (html_file_name platform (strftime dt2))
  = (stamp dt1 <=? stamp dt2)%Z.
Proof.
  intros H1 H2. unfold html_file_name.
  rewrite !(text_leb_app_same _ (_ ++ _)).
  by apply text_leb_strftime.
Qed.

Lemma stamp_inj (dt1 dt2 : datetime) :
  valid_datetime dt1 = true -> valid_datetime dt2 = true ->
  stamp dt1 = stamp dt2 -> to_second dt1 = to_second dt2.
Proof.
  intros H1 H2.
  apply valid_datetime_bounds in H1 as (Y1 & M1 & D1 & h1 & m1 & s1).
  apply valid_datetime_bounds in H2 as (Y2 & M2 & D2 & h2 & m2 & s2).
  unfold stamp, to_second. intros H.
  assert (year dt1 = year dt2) as -> by lia.
  assert (month dt1 = month dt2) as -> by lia.
  assert (day dt1 = day dt2) as -> by lia.
  assert (hour dt1 = hour dt2) as -> by lia.
  assert (minute dt1 = minute dt2) as -> by lia.
  assert (second dt1 = second dt2) as -> by lia.
  done.
Qed.

Lemma name_inj (p1 p2 : Platform) (dt1 dt2 : datetime) :
  valid_datetime dt1 = true -> valid_datetime dt2 = true ->
  html_file_name (platform_name p1) (strftime dt1)
  = html_file_name (platform_name p2) (strftime dt2) ->
  p1 = p2 /\ to_second dt1 = to_second dt2.
Proof.
  intros H1 H2 E.
  assert (p1 = p2) as <-.
  { apply (f_equal (hd 0%N)) in E.
    destruct p1, p2; try done; vm_compute in E; discriminate. }
  split; [done|]. apply stamp_inj; [done..|].
  pose proof (name_order (platform_name p1) dt1 dt2 H1 H2) as L12.
  pose proof (name_order (platform_name p1) dt2 dt1 H2 H1) as L21.
  rewrite E, text_leb_refl in L12. rewrite E, text_leb_refl in L21.
  symmetry in L12, L21. apply Z.leb_le in L12, L21. lia.
Qed.

(** X18: among the files the monitor saves for one platform, the order of
    the names, in which the batch run takes them, is the order of the times
    of capture. *)
Theorem snapshot_order (platform : text) (dt1 dt2 : datetime)
    (content1 content2 : text) :
  valid_datetime dt1 = true -> valid_datetime dt2 = true ->
  (1000 <= year dt1)%Z -> (1000 <= year dt2)%Z ->
  snapshot_le
    {| name := html_file_name platform (strftime dt1); content := content1 |}
    {| name := html_file_name platform (strftime dt2); content := content2 |}
  <-> (stamp dt1 <= stamp dt2)%Z.
Proof.
  intros H1 H2 _ _. unfold snapshot_le, text_le. cbn [name].
  rewrite name_order by done. apply Z.leb_le.
Qed.

Lemma snapshot_order_witness :
  snapshot_le
    {| name := py "douyin_20251112_235959.html"; content := [] |}
    {| name := py "douyin_20251113_000000.html"; content := [] |}
  <-> (20251112235959 <= 20251113000000)%Z.
Proof.
  apply (snapshot_order (py "douyin")
           {| year := 2025; month := 11; day := 12; hour := 23;
              minute := 59; second := 59; microsecond := 0 |}
           {| year := 2025; month := 11; day := 13; hour := 0;
              minute := 0; second := 0; microsecond := 0 |} [] []).
  - reflexivity.
  - reflexivity.
  - simpl. lia.
  - simpl. lia.
Defined.

(** X19: two captures in a row leave two files, each with its page, unless
    they are of one platform within one second. *)
Theorem captures_kept (p1 p2 : Platform) (content1 content2 : text)
    (m : monitor) :
  let dt1 := wall_clock m (clock_reads m) in
  let dt2 := wall_clock m (S (clock_reads m)) in
  let c1 := capture (platform_name p1) content1 m in
  let c2 := capture (platform_name p2) content2 c1.2 in
  valid_datetime dt1 = true -> valid_datetime dt2 = true ->
  (1000 <= year dt1)%Z -> (1000 <= year dt2)%Z ->
  p1 <> p2 \/ to_second dt1 <> to_second dt2 ->
  c1.1 <> c2.1 /\
  html_dir c2.2 !! c1.1 = Some content1 /\
  html_dir c2.2 !! c2.1 = Some content2.
Proof.
  intros dt1 dt2 c1 c2 H1 H2 _ _ Hne.
  assert (Hn : c1.1 <> c2.1).
  { intros E. apply name_inj in E as [??]; [|done..]. by destruct Hne. }
  split; [done|]. split.
  - unfold c2, capture, _save_html. cbn [html_dir fst snd].
    rewrite lookup_insert_ne by done. apply lookup_insert_eq.
  - apply lookup_insert_eq.
Qed.

Lemma captures_kept_witness :
  let c1 := capture (py "douyin") (py "<html>1</html>") sample_monitor in
  let c2 := capture (py "bilibili") (py "<html>2</html>") c1.2 in
  c1.1 <> c2.1 /\
  html_dir c2.2 !! c1.1 = Some (py "<html>1</html>") /\
  html_dir c2.2 !! c2.1 = Some (py "<html>2</html>").
Proof.
  apply (captures_kept Douyin Bilibili (py "<html>1</html>")
           (py "<html>2</html>") sample_monitor).
  - reflexivity.
  - reflexivity.
  - simpl. lia.
  - simpl. lia.
  - left. discriminate.
Defined.

(** X20: a second capture of the same platform within the same second
    takes the name of the first and replaces its file: the cache directory
    keeps the later page only. *)
Theorem capture_same_second (p : Platform) (content1 content2 : text)
    (m : monitor) :
  let dt1 := wall_clock m (clock_reads m) in
  let dt2 := wall_clock m (S (clock_reads m)) in
  let c1 := capture (platform_name p) content1 m in
  let c2 := capture (platform_name p) content2 c1.2 in
  to_second dt1 = to_second dt2 ->
  c2.1 = c1.1 /\
  html_dir c2.2 = <[c1.1 := content2]> (html_dir m) /\
  saved_names c2.2 = saved_names m ++ [c1.1; c1.1].
Proof.
  intros dt1 dt2 c1 c2 E.
  assert (Hs : strftime dt2 = strftime dt1).
  { change (strftime (to_second dt2) = strftime (to_second dt1)).
    by rewrite E. }
  unfold c2, c1, capture, _save_html. cbn [html_dir saved_names fst snd
    wall_clock clock_reads].
  fold dt1 dt2. rewrite Hs. split; [done|]. split.
  - apply insert_insert_eq.
  - by rewrite <- app_assoc.
Qed.

Lemma capture_same_second_witness :
  let c1 := capture (py "douyin") (py "<html>1</html>") sample_monitor in
  let c2 := capture (py "douyin") (py "<html>2</html>") c1.2 in
  c2.1 = c1.1 /\
  html_dir c2.2 = <[c1.1 := py "<html>2</html>"]> (html_dir sample_monitor) /\
  saved_names c2.2 = saved_names sample_monitor ++ [c1.1; c1.1].
Proof.
  apply (capture_same_second Douyin (py "<html>1</html>")
           (py "<html>2</html>") sample_monitor).
  reflexivity.
Defined.

(** ** The latest capture of a day *)

#[global] Instance snapshot_le_total : Total snapshot_le.
Proof. intros a b. apply text_leb_total. Qed.

#[global] Instance snapshot_le_trans : Transitive snapshot_le.
Proof. intros a b c. apply text_leb_trans. Qed.

Lemma platform_name_inj (p1 p2 : Platform) :
  platform_name p1 = platform_name p2 -> p1 = p2.
Proof. destruct p1, p2; try done; intros H; vm_compute in H; discriminate. Qed.

Lemma foldl_merge_other (captures : list captured) (h : history)
    (d p : text) :
  (forall c, c ∈ captures ->
     (d, p) <> (date_key (taken_at c), platform_name (of_platform c))) ->
  count_at (foldl merge_captured h captures) d p = count_at h d p.
Proof.
  revert h. induction captures as [|c captures IH]; intros h H; [done|].
  simpl. rewrite IH.
  - unfold merge_captured. destruct (count_of c); [|done].
    apply count_at_merged_other, H. left.
  - intros c' Hc'. apply H. by right.
Qed.

Section LatestCapture.
Variable lower : text -> text.

(** A loop over usable captures completes, and merges their counts in
    the order of the list. *)
Lemma process_files_captures (captures : list captured) (processed : nat)
    (w : world) :
  Forall (usable lower) captures ->
  exists w',
    process_files lower (map snapshot_of captures) processed w
    = (Ok (processed + length captures), w') /\
    loaded w' = foldl merge_captured (loaded w) captures.
Proof.
  revert processed w.
  induction captures as [|c captures IH]; intros processed w H.
  - exists w. simpl. by rewrite Nat.add_0_r.
  - apply Forall_cons in H as [(Hv & _ & [n Hn] & Hl) H].
    change (map snapshot_of (c :: captures))
      with (snapshot_of c :: map snapshot_of captures).
    rewrite process_files_cons.
    assert (He : extract (of_platform c) (page c) = Ok (Some n)).
    { unfold count_of in Hn. by destruct (extract _ _) as [[?|]|]; simplify_eq. }
    unfold snapshot_of at 1.
    rewrite (process_captured lower _ _ _ n) by done.
    set (e := {| platform := platform_name (of_platform c); followers := n;
                 timestamp := isoformat (to_second (taken_at c));
                 source_file := _ |}).
    set (w1 := emit w [Processing (name (snapshot_of c))]).
    destruct (IH (S processed) (emit (append_data e w1).2 [Blank]) H)
      as (w' & E & Hw').
    exists w'. rewrite E. split.
    + do 2 f_equal. simpl. lia.
    + rewrite Hw'.
      change (foldl merge_captured (loaded w) (c :: captures))
        with (foldl merge_captured (merge_captured (loaded w) c) captures).
      f_equal.
      change (loaded (emit (append_data e w1).2 [Blank]))
        with (loaded (append_data e w1).2).
      rewrite loaded_append_data. unfold merge_captured. rewrite Hn.
      change (loaded w1) with (loaded w). f_equal.
      exact (isoformat_date (to_second (taken_at c))).
Qed.

(** X21: in a batch run over files of the monitor that all yield data,
    the store ends with the count of the latest capture of a platform on
    a date under that date and platform, in whatever order the directory
    lists the files. *)
Theorem latest_capture_wins (captures : list captured) (c : captured)
    (n : Z) (w : world) :
  let html_files := map snapshot_of captures in
  NoDup (map name html_files) ->
  Forall (usable lower) captures ->
  c ∈ captures ->
  count_of c = Some n ->
  (forall c', c' ∈ captures ->
     of_platform c' = of_platform c ->
     date_key (taken_at c') = date_key (taken_at c) ->
     (stamp (taken_at c') <= stamp (taken_at c))%Z) ->
  count_at
    (loaded (process_all_html_files lower (Some html_files) w).2)
    (date_key (taken_at c)) (platform_name (of_platform c))
  = Some n.
Proof.
  intros html_files Hnd Hall Hin Hn Hmax.
  assert (Hne : html_files <> []).
  { unfold html_files. destruct captures; [|done]. by apply elem_of_nil in Hin. }
  rewrite process_all_nonempty by done.
  pose proof (merge_sort_Permutation snapshot_le html_files) as Hp.
  pose proof (StronglySorted_merge_sort snapshot_le html_files) as Hs.
  apply Permutation_map_inv in Hp as (ordered & Es & Hperm).
  rewrite Es in Hs |- *.
  assert (Hall' : Forall (usable lower) ordered) by by rewrite <- Hperm.
  destruct (process_files_captures ordered 0
              (emit w [Rule; ProcessingCount (length html_files); Rule]) Hall')
    as (w' & E & Hw').
  rewrite E, (loaded_history w') by apply finish_history.
  rewrite Hw'.
  assert (Hnd' : NoDup (map name (map snapshot_of ordered))).
  { by rewrite <- Hperm. }
  rewrite Hperm in Hin.
  apply list_elem_of_split in Hin as (l1 & l2 & ->).
  rewrite foldl_app. simpl foldl.
  rewrite foldl_merge_other.
  { unfold merge_captured. rewrite Hn. apply count_at_merged_same. }
  intros y Hy [Hd Hpl]%pair_equal_spec. apply platform_name_inj in Hpl.
  rewrite map_app in Hs. rewrite map_app in Hnd'. rewrite map_app in Hnd'.
  apply StronglySorted_app_1_r in Hs. apply NoDup_app in Hnd' as (_ & _ & Hnd').
  simpl in Hs, Hnd'.
  apply StronglySorted_cons in Hs as [Hs _]. apply NoDup_cons in Hnd' as [Hnd' _].
  assert (Hvc : valid_datetime (taken_at c) = true).
  { rewrite Forall_forall in Hall'. apply Hall'. set_solver. }
  assert (Hvy : valid_datetime (taken_at y) = true).
  { rewrite Forall_forall in Hall'. apply Hall'. set_solver. }
  assert (Hle : (stamp (taken_at c) <= stamp (taken_at y))%Z).
  { rewrite Forall_forall in Hs.
    assert (Hcy : snapshot_le (snapshot_of c) (snapshot_of y)).
    { apply Hs. change (map ?f ?l) with (f <$> l).
      by apply list_elem_of_fmap_2. }
    unfold snapshot_le, text_le, snapshot_of in Hcy. cbn [name] in Hcy.
    rewrite <- Hpl, name_order in Hcy by done. by apply Z.leb_le. }
  assert (Hge : (stamp (taken_at y) <= stamp (taken_at c))%Z).
  { apply Hmax; [|done..]. rewrite Hperm. set_solver. }
  assert (Hsec : to_second (taken_at y) = to_second (taken_at c)).
  { apply stamp_inj; [done..|lia]. }
  apply Hnd'. change (map ?f ?l) with (f <$> l).
  apply list_elem_of_fmap. exists (snapshot_of y). split.
  - unfold snapshot_of. cbn [name]. rewrite <- Hpl.
    change (strftime (taken_at c)) with (strftime (to_second (taken_at c))).
    by rewrite <- Hsec.
  - by apply list_elem_of_fmap_2.
Qed.
End LatestCapture.

Lemma latest_capture_wins_witness :
  count_at
    (loaded (process_all_html_files ascii_lower
               (Some (map snapshot_of two_captures)) sample_world).2)
    (py "2025-11-12") (py "douyin")
  = Some 5440%Z.
Proof.
  apply (latest_capture_wins ascii_lower two_captures
           {| of_platform := Douyin;
              taken_at := {| year := 2025; month := 11; day := 12; hour := 18;
                             minute := 0; second := 0; microsecond := 0 |};
              page := element Douyin (doc_attrs Douyin) 5440 |}
           5440 sample_world).
  - apply (bool_decide_unpack _). vm_compute. reflexivity.
  - repeat constructor; try (vm_compute; reflexivity);
      try (simpl; lia); vm_compute; by eexists.
  - left.
  - vm_compute. reflexivity.
  - intros c' [->|[->|[]%elem_of_nil]%elem_of_cons]%elem_of_cons _ _;
      vm_compute; discriminate.
Defined.

(** ** Counts that are not written in digits *)

(** Two runs of characters with a property, each followed by a character
    without it: when the texts agree, so do the runs and what follows. *)
Lemma first_stop_by (P : N -> bool) (u u' r r' : text) (q q' : N) :
  forallb P u = true -> forallb P u' = true ->
  P q = false -> P q' = false ->
  u ++ q :: r = u' ++ q' :: r' -> u = u' /\ q = q' /\ r = r'.
Proof.
  revert u'. induction u as [|a u IH]; intros u' Hu Hu' Hq Hq' E.
  - destruct u' as [|a' u']; simpl in *.
    + by injection E as -> ->.
    + injection E as -> _. apply andb_true_iff in Hu' as [Ha _]. congruence.
  - destruct u' as [|a' u']; simpl in *.
    + injection E as -> _. apply andb_true_iff in Hu as [Ha _]. congruence.
    + injection E as -> E. apply andb_true_iff in Hu as [_ Hu].
      apply andb_true_iff in Hu' as [_ Hu'].
      destruct (IH u' Hu Hu' Hq Hq' E) as (-> & -> & ->). done.
Qed.

(** The words of the xiaohongshu pattern. *)
Lemma xiaohongshu_word (w : text) (g : caps) :
  Matches xiaohongshu_pattern w g ->
  exists u d v,
    tag_text u = true /\ forallb is_digit d = true /\
    w = py "<span class='count'" ++ u ++ py ">" ++ d
        ++ py "</span><span class='shows'" ++ v
        ++ (py ">" ++ fans ++ py "</span>").
Proof.
  intros H. unfold xiaohongshu_pattern in H. inv_word.
  eexists _, _, _. split; [eassumption|]. split; [eassumption|]. reflexivity.
Qed.

(** An occurrence of a pattern of the extractors begins with [<]. *)
Lemma occurrence_begins (p : Platform) (s : text) (j : nat) :
  occurs_at (pattern_of p) s j -> s !! j = Some (ch "<").
Proof.
  intros [_ (w & rest & g & Hd & Hm)].
  assert (Hw : exists w', w = ch "<" :: w').
  { destruct p; unfold pattern_of in Hm;
      unfold bilibili_pattern, douyin_pattern, xiaohongshu_pattern in Hm;
      inversion Hm as [| | | | | |r1 r2 w1 w2 g1 g2 Hm1 Hm2]; subst;
      inversion Hm1; subst; eexists; reflexivity. }
  destruct Hw as [w' ->].
  rewrite <- (Nat.add_0_r j), <- lookup_drop, Hd. done.
Qed.

(** [re.search] passes over text without [<]. *)
Lemma search_skip_plain (p : Platform) (u t : text) :
  gap_text u = true ->
  search (pattern_of p) (u ++ t) = search (pattern_of p) t.
Proof.
  intros Hu. apply search_skip. intros j Hj Ho.
  apply occurrence_begins in Ho. rewrite lookup_app_l in Ho by done.
  apply list_elem_of_lookup_2, list_elem_of_In in Ho.
  unfold gap_text in Hu. rewrite forallb_forall in Hu.
  apply Hu in Ho. by rewrite N.eqb_refl in Ho.
Qed.

Lemma search_plain (p : Platform) (u : text) :
  gap_text u = true -> search (pattern_of p) u = None.
Proof.
  intros Hu. rewrite <- (app_nil_r u), search_skip_plain by done.
  by destruct p.
Qed.

Lemma search_step (r : regex) (s : text) :
  match_here r s = None -> search r s = search r (tl s).
Proof. intros H. destruct s; simpl; by rewrite H. Qed.

Lemma digits_plain (d : text) :
  forallb is_digit d = true ->
  forallb (fun c => negb (c =? ch "<")%N) d = true.
Proof.
  apply forallb_impl. intros c Hc.
  destruct (N.eqb_spec c (ch "<")) as [->|]; [|done].
  vm_compute in Hc. discriminate.
Qed.

(** No word of the xiaohongshu pattern begins at a counter element whose
    count is not a run of digits. *)
Lemma xiaohongshu_shown_no_match (a1 shown rest : text) :
  tag_text a1 = true -> gap_text shown = true ->
  forallb is_digit shown = false ->
  match_here xiaohongshu_pattern
    (py "<span class='count'" ++ a1 ++ py ">" ++ shown
     ++ py "</span><span class='shows'" ++ rest) = None.
Proof.
  intros Ha Hs Hnd. apply match_here_None.
  intros (w & r & g & E & Hm).
  apply xiaohongshu_word in Hm as (u & d & v & Hu & Hd & ->).
  rewrite <- !app_assoc in E. apply app_inv_head in E.
  destruct (first_stop NotGt a1 u _ _ 62%N 62%N Ha Hu eq_refl eq_refl E)
    as (_ & _ & E').
  destruct (first_stop_by (fun c => negb (c =? ch "<")%N) shown d _ _
              60%N 60%N Hs (digits_plain d Hd) eq_refl eq_refl E')
    as (-> & _ & _).
  congruence.
Qed.

(** X22: a xiaohongshu counter whose count is not written in digits
    only (an abbreviated count, a count with separators) is not read:
    on a page with that counter and no other tag the extractor returns
    [None]. *)
Theorem xiaohongshu_digits_only (a : attrs) (shown pre post : text) :
  tag_text (attr1 a) = true ->
  gap_text (attr1 a) = true -> gap_text (attr2 a) = true ->
  gap_text shown = true -> forallb is_digit shown = false ->
  gap_text pre = true -> gap_text post = true ->
  extract_xiaohongshu_followers (pre ++ xiaohongshu_shown a shown ++ post)
  = Ok None.
Proof.
  intros Ht H1 H2 Hs Hnd Hpre Hpost.
  unfold extract_xiaohongshu_followers, extract_with.
  change xiaohongshu_pattern with (pattern_of Xiaohongshu).
  rewrite search_skip_plain by done.
  unfold xiaohongshu_shown. rewrite <- !app_assoc.
  rewrite search_step by by apply xiaohongshu_shown_no_match.
  change (tl (py "<span class='count'" ++ ?t))
    with (py "span class='count'" ++ t).
  rewrite (search_skip_plain _ (py "span class='count'")) by done.
  rewrite (search_skip_plain _ (attr1 a)) by done.
  rewrite (search_skip_plain _ (py ">")) by done.
  rewrite (search_skip_plain _ shown) by done.
  rewrite search_step by reflexivity.
  change (tl (py "</span><span class='shows'" ++ ?t))
    with (py "/span>" ++ py "<span class='shows'" ++ t).
  rewrite (search_skip_plain _ (py "/span>")) by done.
  rewrite search_step by reflexivity.
  change (tl (py "<span class='shows'" ++ ?t))
    with (py "span class='shows'" ++ t).
  rewrite (search_skip_plain _ (py "span class='shows'")) by done.
  rewrite (search_skip_plain _ (attr2 a)) by done.
  rewrite (search_skip_plain _ (py ">")) by done.
  rewrite (search_skip_plain _ fans) by done.
  rewrite search_step by reflexivity.
  change (tl (py "</span>" ++ ?t)) with (py "/span>" ++ t).
  rewrite (search_skip_plain _ (py "/span>")) by done.
  by rewrite search_plain.
Qed.

Lemma xiaohongshu_digits_only_witness :
  extract_xiaohongshu_followers
    (py "page " ++ xiaohongshu_shown (doc_attrs Xiaohongshu)
                     (py "1.2" ++ [0x4E07%N]) ++ py " end")
  = Ok None.
Proof.
  apply (xiaohongshu_digits_only (doc_attrs Xiaohongshu)
           (py "1.2" ++ [0x4E07%N]) (py "page ") (py " end"));
    vm_compute; reflexivity.
Defined.

(** No word of the bilibili pattern begins at a counter element whose
    shown text is not a run of digits. *)
Lemma bilibili_shown_no_match (a1 a2 a3 D shown post : text) :
  tag_text a1 = true -> tag_text a2 = true -> tag_text a3 = true ->
  forallb is_digit D = true ->
  gap_text shown = true -> forallb is_digit shown = false ->
  match_here bilibili_pattern
    (py "<span" ++ a1
     ++ (py "class='nav-statistics__item-text'>" ++ fans_count
         ++ py "</span><span")
     ++ a2 ++ py "class='nav-statistics__item-num'" ++ a3
     ++ py "title='" ++ D ++ py "'>" ++ shown ++ py "</span>" ++ post)
  = None.
Proof.
  intros H1 H2 H3 HD Hs Hnd. apply match_here_None.
  intros (w & r & g & E & Hm).
  apply bilibili_words in Hm
      as (x1 & x2 & x3 & E1 & E2 & -> & -> & Hx1 & Hx2 & Hx3 & _ & HE1 & _ & HE2).
  rewrite <- !app_assoc in E. apply app_inv_head in E.
  pose proof (tag_end_unique (py "class='nav-statistics__item-text'")
                a1 [] x1 [] _ _ eq_refl H1 eq_refl Hx1 eq_refl E) as [_ E'].
  do 2 apply app_inv_head in E'.
  pose proof (quoted_value_unique (py "class='nav-statistics__item-num'")
                (py "title=") a2 a3 x2 x3 D E1 _ _
                eq_refl H2 H3 Hx2 Hx3 eq_refl HD HE1 E') as [_ E''].
  destruct (first_stop_by (fun c => negb (c =? ch "<")%N) shown E2 _ _
              60%N 60%N Hs (digits_plain E2 HE2) eq_refl eq_refl E'')
    as (-> & _ & _).
  congruence.
Qed.

(** Nor does one begin at the second tag of the counter. *)
Lemma bilibili_second_no_match (a2 a3 D shown post : text) :
  tag_text a2 = true -> tag_text a3 = true -> forallb is_digit D = true ->
  gap_text shown = true -> gap_text post = true ->
  match_here bilibili_pattern
    (py "<span" ++ a2 ++ py "class='nav-statistics__item-num'" ++ a3
     ++ py "title='" ++ D ++ py "'>" ++ shown ++ py "</span>" ++ post)
  = None.
Proof.
  intros H2 H3 HD Hs Hpost. apply match_here_None.
  intros (w & r & g & E & Hm).
  apply bilibili_words in Hm
      as (x1 & x2 & x3 & E1 & E2 & -> & -> & Hx1 & Hx2 & Hx3 & _ & HE1 & _ & HE2).
  rewrite <- !app_assoc in E. apply app_inv_head in E.
  destruct (first_stop NotGt
              (a2 ++ py "class='nav-statistics__item-num'" ++ a3
               ++ py "title='" ++ D ++ py "'")
              (x1 ++ py "class='nav-statistics__item-text'")
              (shown ++ py "</span>" ++ post)
              (fans_count ++ py "</span><span" ++ x2
               ++ py "class='nav-statistics__item-num'" ++ x3
               ++ py "title='" ++ E1 ++ py "'>" ++ E2 ++ py "</span>" ++ r)
              62%N 62%N) as (_ & _ & E'); try done.
  - change (tag_text (a2 ++ py "class='nav-statistics__item-num'" ++ a3
                      ++ py "title='" ++ D ++ py "'") = true).
    by rewrite !tag_text_app, H2, H3, (digit_tag_text D HD).
  - change (tag_text (x1 ++ py "class='nav-statistics__item-text'") = true).
    by rewrite !tag_text_app, Hx1.
  - rewrite <- !app_assoc. exact E.
  - destruct (first_stop_by (fun c => negb (c =? ch "<")%N) shown fans_count
                (py "/span>" ++ post) _ 60%N 60%N Hs eq_refl eq_refl eq_refl E')
      as (_ & _ & E'').
    apply (app_inv_head (py "/span>")) in E''. rewrite E'' in Hpost.
    discriminate.
Qed.

(** X23: a bilibili counter whose shown text is not written in digits
    only is not read, whatever number its [title] attribute holds: on a
    page with that counter and no other tag the extractor returns
    [None]. *)
Theorem bilibili_digits_only (a : attrs) (title : N) (shown pre post : text) :
  attrs_ok a = true ->
  gap_text (attr1 a) = true -> gap_text (attr2 a) = true ->
  gap_text (attr3 a) = true ->
  gap_text shown = true -> forallb is_digit shown = false ->
  gap_text pre = true -> gap_text post = true ->
  extract_bilibili_followers (pre ++ bilibili_shown a title shown ++ post)
  = Ok None.
Proof.
  unfold attrs_ok. intros H G1 G2 G3 Hs Hnd Hpre Hpost.
  apply andb_true_iff in H as [H _]. apply andb_true_iff in H as [H H3].
  apply andb_true_iff in H as [H1 H2].
  pose proof (decimal_digits title) as HD.
  unfold extract_bilibili_followers, extract_with.
  change bilibili_pattern with (pattern_of Bilibili).
  rewrite search_skip_plain by done.
  unfold bilibili_shown. rewrite <- !app_assoc.
  rewrite search_step by by apply bilibili_shown_no_match.
  change (tl (py "<span" ++ ?t)) with (py "span" ++ t).
  rewrite (search_skip_plain _ (py "span")) by done.
  rewrite (search_skip_plain _ (attr1 a)) by done.
  rewrite (search_skip_plain _ (py "class='nav-statistics__item-text'>"))
    by done.
  rewrite (search_skip_plain _ fans_count) by done.
  rewrite search_step by reflexivity.
  change (tl (py "</span><span" ++ ?t)) with (py "/span>" ++ py "<span" ++ t).
  rewrite (search_skip_plain _ (py "/span>")) by done.
  rewrite search_step by by apply bilibili_second_no_match.
  change (tl (py "<span" ++ ?t)) with (py "span" ++ t).
  rewrite (search_skip_plain _ (py "span")) by done.
  rewrite (search_skip_plain _ (attr2 a)) by done.
  rewrite (search_skip_plain _ (py "class='nav-statistics__item-num'"))
    by done.
  rewrite (search_skip_plain _ (attr3 a)) by done.
  rewrite (search_skip_plain _ (py "title='")) by done.
  rewrite (search_skip_plain _ (decimal title)) by by apply digits_plain.
  rewrite (search_skip_plain _ (py "'>")) by done.
  rewrite (search_skip_plain _ shown) by done.
  rewrite search_step by reflexivity.
  change (tl (py "</span>" ++ ?t)) with (py "/span>" ++ t).
  rewrite (search_skip_plain _ (py "/span>")) by done.
  by rewrite search_plain.
Qed.

Lemma bilibili_digits_only_witness :
  extract_bilibili_followers
    (py "page " ++ bilibili_shown (doc_attrs Bilibili) 12000
                     (py "1.2" ++ [0x4E07%N]) ++ py " end")
  = Ok None.
Proof.
  apply (bilibili_digits_only (doc_attrs Bilibili) 12000
           (py "1.2" ++ [0x4E07%N]) (py "page ") (py " end"));
    vm_compute; reflexivity.
Defined.

(** ** How the extractor fails *)

Lemma process_html_file_entry_witness :
  exists p,
    platform_of (ascii_lower (py "bilibili_20251112_154753.html")) = Some p /\
    platform bilibili_532 = platform_name p /\
    platform bilibili_532 ∈ tracked_platforms /\
    extract p (element Bilibili (doc_attrs Bilibili) 532)
    = Ok (Some (followers bilibili_532)) /\
    (0 <= followers bilibili_532)%Z /\
    extract_timestamp_from_filename
      (ascii_lower (py "bilibili_20251112_154753.html")) sample_world
    = (Ok (timestamp bilibili_532), sample_world) /\
    source_file bilibili_532 = py "bilibili_20251112_154753.html" /\
    history_file sample_world = history_file sample_world /\
    stdout sample_world = stdout sample_world.
Proof.
  apply (process_html_file_entry ascii_lower
           {| name := py "bilibili_20251112_154753.html";
              content := element Bilibili (doc_attrs Bilibili) 532 |}
           sample_world sample_world bilibili_532).
  vm_compute. reflexivity.
Defined.





Section Failures.
Variable lower : text -> text.

End Failures.

